(** * CDS Services tutorial: the two versions of the Express service

    The repository holds two versions of one Express application:
    - [src/index.js], the CDS Hooks 1.0 service (patient-view and
      order-select), with a CORS middleware and an authorization
      middleware;
    - [src/unnamed/part_000], the earlier service (patient-view and
      medication-prescribe), with the CORS middleware only.

    The development has three layers.  The first is a small model of the
    JavaScript values the handlers touch: primitives, and objects and
    arrays that live in a heap and are passed by reference, so that the
    assignment [newMedicationRequest.medicationCodeableConcept = ...] is
    seen through every alias of the draft order.  The second is the part of
    Express the program uses: request, response, middleware chain and
    routes.  The third is the program itself, one module per source file,
    followed by the theorems. *)

From Stdlib Require Import ZArith String Ascii List Lia.
From stdpp Require Import base option list strings pretty gmap.

Set Warnings "-register-all".

(** ** JavaScript values *)

(** A location of the heap: the identity of an object or array. *)
Abbreviation loc := nat.

(** Primitive values are carried by value, objects and arrays by reference.
    A number is a double.  The program does no arithmetic: it tests a
    number for truth, prints it and compares it, so a number is kept as the
    text JavaScript prints for it (["12"], ["0.5"], ["1e+21"], ["NaN"]).
    The text tells two numbers apart but for the sign of zero, which nothing
    here can see. *)
Inductive value :=
| VUndef
| VNull
| VBool (b : bool)
| VNum (text : string)
| VStr (s : string)
| VRef (l : loc).

(** An object keeps its own properties in insertion order; an array keeps
    its elements. *)
Inductive cell :=
| Obj (props : list (string * value))
| Arr (elems : list value).

Abbreviation heap := (list cell).

#[global] Instance value_eq_dec : EqDecision value.
Proof. solve_decision. Defined.

(** The errors the program can raise: a TypeError (reading a property of
    [undefined] or [null], calling what is not a function, converting an
    object that has no usable [toString], serialising a cycle) and the
    RangeError of a recursion that never ends. *)
Inductive exn := TypeError | RangeError.

Inductive result (A : Type) :=
| Ok (a : A)
| Throw (e : exn).
Arguments Ok {A} a.
Arguments Throw {A} e.

(** A computation reads and updates the heap, and returns or throws. *)
Definition js (A : Type) : Type := heap -> result (A * heap).

Definition pure {A} (a : A) : js A := fun h => Ok (a, h).

Definition bind {A B} (m : js A) (f : A -> js B) : js B := fun h =>
  match m h with
  | Ok (a, h') => f a h'
  | Throw e => Throw e
  end.

Notation "'let!' x ':=' m 'in' k" := (bind m (fun x => k))
  (at level 10, x name, m at level 100, k at level 200,
   format "'[v' 'let!'  x  ':='  m  'in' '/' k ']'").

(** *** Strings *)

(** The double quote, for the texts that contain one. *)
Definition dquote : string := String "034"%char EmptyString.

Definition lower_ascii (c : ascii) : ascii :=
  let n := nat_of_ascii c in
  if (Nat.leb 65 n && Nat.leb n 90)%bool then ascii_of_nat (n + 32) else c.

Fixpoint lowercase (s : string) : string :=
  match s with
  | EmptyString => EmptyString
  | String c r => String (lower_ascii c) (lowercase r)
  end.

(** [s.startsWith(p)] *)
Definition startsWith (s p : string) : bool := String.prefix p s.

(** [s.includes(p)] on strings: [p] occurs in [s]. *)
Fixpoint str_includes (s p : string) : bool :=
  if String.prefix p s then true
  else match s with
       | EmptyString => false
       | String _ r => str_includes r p
       end.

Fixpoint str_drop (n : nat) (s : string) : string :=
  match n, s with
  | S n', String _ r => str_drop n' r
  | _, _ => s
  end.

(** [s.replace(p, r)] with a string pattern: the first occurrence only. *)
Fixpoint replace (s p r : string) : string :=
  if String.prefix p s then r +:+ str_drop (String.length p) s
  else match s with
       | EmptyString => EmptyString
       | String c t => String c (replace t p r)
       end.

Fixpoint join (sep : string) (l : list string) : string :=
  match l with
  | [] => EmptyString
  | [x] => x
  | x :: r => x +:+ sep +:+ join sep r
  end.

(** *** Properties *)

Fixpoint lookup_prop (k : string) (props : list (string * value)) : option value :=
  match props with
  | [] => None
  | (k', v) :: r => if String.eqb k k' then Some v else lookup_prop k r
  end.

(** An assignment to a property keeps the place of a key that exists and
    adds a new key at the end. *)
Fixpoint assign_prop (k : string) (v : value) (props : list (string * value))
  : list (string * value) :=
  match props with
  | [] => [(k, v)]
  | (k', v') :: r =>
      if String.eqb k k' then (k, v) :: r else (k', v') :: assign_prop k v r
  end.

(** An array index: the decimal text, without a leading zero, of an integer
    below 2^32 - 1. *)
Definition digit (c : ascii) : option N :=
  let n := N_of_ascii c in
  if ((48 <=? n) && (n <=? 57))%N then Some (n - 48)%N else None.

Fixpoint digits (s : string) (acc : N) : option N :=
  match s with
  | EmptyString => Some acc
  | String c r =>
      match digit c with
      | Some d => digits r (10 * acc + d)%N
      | None => None
      end
  end.

Definition array_index (k : string) : option N :=
  match k with
  | EmptyString => None
  | String c r =>
      if (Ascii.eqb c "0" && negb (String.eqb r EmptyString))%bool then None
      else match digits k 0 with
           | Some n => if (n <? 4294967295)%N then Some n else None
           | None => None
           end
  end.

(** The order in which the own properties of an object are listed: the
    array indices first, in ascending order, then the other keys in
    insertion order. *)
Definition comes_before (k k' : string) : bool :=
  match array_index k, array_index k' with
  | Some n, Some m => (n <=? m)%N
  | Some _, None => true
  | None, Some _ => false
  | None, None => true
  end.

Fixpoint list_before (e : string * value) (l : list (string * value))
  : list (string * value) :=
  match l with
  | [] => [e]
  | e' :: r => if comes_before e.1 e'.1 then e :: l else e' :: list_before e r
  end.

Definition own_properties (props : list (string * value)) : list (string * value) :=
  foldr list_before [] props.
Arguments own_properties : simpl never.

(** No key of [props] is an array index. *)
Definition named (props : list (string * value)) : bool :=
  forallb (fun kv => match array_index kv.1 with
                     | Some _ => false
                     | None => true
                     end) props.

(** [v.k] for the property names of this program, none of which is a
    property of a prototype: an own property of an object, [undefined] on
    an array or on a primitive, a TypeError on [undefined] and [null]. *)
Definition get_prop (v : value) (k : string) : js value := fun h =>
  match v with
  | VUndef | VNull => Throw TypeError
  | VBool _ | VNum _ | VStr _ => Ok (VUndef, h)
  | VRef l =>
      match h !! l with
      | Some (Obj props) => Ok (default VUndef (lookup_prop k props), h)
      | Some (Arr _) => Ok (VUndef, h)
      | None => Throw TypeError
      end
  end.

(** [v[i]]: an element of an array, a character of a string, the property
    named by the digits of [i] of an object.  A character of the model is
    one UTF-16 unit of the program for the texts of ASCII. *)
Definition get_index (v : value) (i : nat) : js value := fun h =>
  match v with
  | VUndef | VNull => Throw TypeError
  | VBool _ | VNum _ => Ok (VUndef, h)
  | VStr s =>
      Ok (match String.get i s with
          | Some c => VStr (String c EmptyString)
          | None => VUndef
          end, h)
  | VRef l =>
      match h !! l with
      | Some (Obj props) => Ok (default VUndef (lookup_prop (pretty i) props), h)
      | Some (Arr elems) => Ok (default VUndef (elems !! i), h)
      | None => Throw TypeError
      end
  end.

(** [v.k = w] (the file is not in strict mode: the assignment to a property
    of a primitive is dropped; a named property of an array is not kept, as
    nothing reads or serialises it). *)
Definition set_prop (v : value) (k : string) (w : value) : js unit := fun h =>
  match v with
  | VUndef | VNull => Throw TypeError
  | VBool _ | VNum _ | VStr _ => Ok (tt, h)
  | VRef l =>
      match h !! l with
      | Some (Obj props) => Ok (tt, <[l := Obj (assign_prop k w props)]> h)
      | Some (Arr _) => Ok (tt, h)
      | None => Throw TypeError
      end
  end.

(** An object or array literal: a new cell, at a location no value of the
    heap refers to. *)
Definition alloc (c : cell) : js value := fun h => Ok (VRef (length h), h ++ [c]).
Definition new_object (props : list (string * value)) : js value := alloc (Obj props).
Definition new_array (elems : list value) : js value := alloc (Arr elems).

(** *** Conversions *)

(** The truth value of a condition. *)
Definition truthy (v : value) : bool :=
  match v with
  | VUndef | VNull => false
  | VBool b => b
  | VNum t => negb (String.eqb t "0" || String.eqb t "NaN")
  | VStr s => negb (String.eqb s EmptyString)
  | VRef _ => true
  end.

(** [a === b]: the same primitive or the same reference, [NaN] being equal
    to nothing. *)
Definition strict_eq (a b : value) : bool :=
  match a with
  | VNum t => negb (String.eqb t "NaN") && bool_decide (a = b)
  | _ => bool_decide (a = b)
  end.

Fixpoint mapM {A B} (f : A -> result B) (l : list A) : result (list B) :=
  match l with
  | [] => Ok []
  | x :: r =>
      match f x with
      | Ok y => match mapM f r with
                | Ok ys => Ok (y :: ys)
                | Throw e => Throw e
                end
      | Throw e => Throw e
      end
  end.

(** The text of a value, in a template literal or next to a string under
    [+].  An object parsed from JSON has no function among its own
    properties: with an own [toString] the conversion finds nothing to call
    and throws, without one it is [Object.prototype.toString].  An array is
    the join of its elements, [undefined] and [null] being empty.  The
    fuel is the number of cells: a chain of arrays longer than that goes
    round a cycle. *)
Fixpoint to_string_fuel (fuel : nat) (h : heap) (v : value) : result string :=
  match v with
  | VUndef => Ok "undefined"
  | VNull => Ok "null"
  | VBool true => Ok "true"
  | VBool false => Ok "false"
  | VNum t => Ok t
  | VStr s => Ok s
  | VRef l =>
      match fuel with
      | O => Throw RangeError
      | S fuel' =>
          match h !! l with
          | Some (Obj props) =>
              match lookup_prop "toString" props with
              | Some _ => Throw TypeError
              | None => Ok "[object Object]"
              end
          | Some (Arr elems) =>
              match mapM (fun e => match e with
                                   | VUndef | VNull => Ok EmptyString
                                   | _ => to_string_fuel fuel' h e
                                   end) elems with
              | Ok l => Ok (join "," l)
              | Throw e => Throw e
              end
          | None => Throw TypeError
          end
      end
  end.

Definition to_string (v : value) : js string := fun h =>
  match to_string_fuel (length h) h v with
  | Ok s => Ok (s, h)
  | Throw e => Throw e
  end.

(** [recv.includes(s)] with a string argument: membership in an array, a
    substring test on a string, and a TypeError where [includes] is not a
    function. *)
Definition includes (recv : value) (s : string) : js bool := fun h =>
  match recv with
  | VStr t => Ok (str_includes t s, h)
  | VRef l =>
      match h !! l with
      | Some (Arr elems) => Ok (bool_decide (VStr s ∈ elems), h)
      | _ => Throw TypeError
      end
  | _ => Throw TypeError
  end.

(** In a call [recv.f(args)] the method is looked up before the arguments
    are evaluated, which throws on [undefined] and [null]. *)
Definition method_of (recv : value) : js unit := fun h =>
  match recv with
  | VUndef | VNull => Throw TypeError
  | _ => Ok (tt, h)
  end.

(** [[a, b].includes(v)] on an array literal of the program. *)
Definition literal_includes (elems : list value) (v : value) : bool :=
  bool_decide (v ∈ elems).

(** ** JSON *)

(** A JSON document as [JSON.parse] reads it and [JSON.stringify] prints
    it: the members of an object in the order of the text, and a number as
    the double it denotes, kept as in [VNum]. *)
Inductive json :=
| JNull
| JBool (b : bool)
| JNum (text : string)
| JStr (s : string)
| JArr (items : list json)
| JObj (members : list (string * json)).

(** A number that is not finite prints as [null]. *)
Definition finite (t : string) : bool :=
  negb (String.eqb t "NaN" || String.eqb t "Infinity" || String.eqb t "-Infinity").

(** [JSON.stringify(v, null, 2)]: the document that is printed.  The
    properties of an object are listed as [own_properties] has them, a
    property whose value is [undefined] is left out, an [undefined] element
    prints as [null], and [JSON.stringify(undefined)] is [undefined]
    ([None]).  A chain of references longer than the number of cells goes
    round a cycle, which is the TypeError of a circular structure. *)
Fixpoint to_json (fuel : nat) (h : heap) (v : value) : result (option json) :=
  match v with
  | VUndef => Ok None
  | VNull => Ok (Some JNull)
  | VBool b => Ok (Some (JBool b))
  | VNum t => Ok (Some (if finite t then JNum t else JNull))
  | VStr s => Ok (Some (JStr s))
  | VRef l =>
      match fuel with
      | O => Throw TypeError
      | S fuel' =>
          match h !! l with
          | Some (Obj props) =>
              match mapM (fun '(k, w) =>
                            match to_json fuel' h w with
                            | Ok j => Ok (k, j)
                            | Throw e => Throw e
                            end) (own_properties props) with
              | Ok ms => Ok (Some (JObj (omap (fun '(k, j) => pair k <$> j) ms)))
              | Throw e => Throw e
              end
          | Some (Arr elems) =>
              match mapM (to_json fuel' h) elems with
              | Ok js => Ok (Some (JArr (default JNull <$> js)))
              | Throw e => Throw e
              end
          | None => Throw TypeError
          end
      end
  end.

Definition JSON_stringify (v : value) : js (option json) := fun h =>
  match to_json (length h) h v with
  | Ok j => Ok (j, h)
  | Throw e => Throw e
  end.

(** [JSON.parse], which the body parser calls on the text of the body: the
    value of a JSON document, every object and array in a cell of its own.
    A key that comes twice keeps its first place and its last value.  The
    parser is a library, not code of [src/]: this is its documented
    behaviour on a document that is already read, numbers being doubles. *)
Fixpoint parse (j : json) : js value :=
  match j with
  | JNull => pure VNull
  | JBool b => pure (VBool b)
  | JNum n => pure (VNum n)
  | JStr s => pure (VStr s)
  | JArr items =>
      let! elems := (fix go (l : list json) : js (list value) :=
                 match l with
                 | [] => pure []
                 | x :: r => let! v := parse x in let! vs := go r in pure (v :: vs)
                 end) items in
      new_array elems
  | JObj members =>
      let! props := (fix go (l : list (string * json)) (acc : list (string * value))
                 : js (list (string * value)) :=
                 match l with
                 | [] => pure acc
                 | (k, x) :: r => let! v := parse x in go r (assign_prop k v acc)
                 end) members [] in
      new_object props
  end.

(** ** Express *)

(** The part of Express the two files use, a library that is not code of
    [src/]: what follows is its documented behaviour.  The body parser,
    which both files install first, has run: a request comes with its
    parsed body.  Of a response the model keeps what the program sets. *)

(** A request after the body parser: [headers] has the header names in
    lower case, as Node keeps them, and [body] is the parsed body in the
    heap. *)
Record request := {
  method : string;
  protocol : string;
  originalUrl : string;
  path : string;
  headers : gmap string string;
  body : value
}.

(** A response: the status code, the headers the program set (names in
    lower case), the JSON document sent as body if any, and whether the
    response was ended. *)
Record response := {
  statusCode : Z;
  res_headers : gmap string string;
  res_body : option json;
  finished : bool
}.

Module Request.
(** [request.get(name)]: the header, whatever the case of [name]. *)
Definition get (req : request) (name : string) : option string :=
  headers req !! lowercase name.
End Request.

Module Response.
Definition setHeader (name v : string) (res : response) : response :=
  {| statusCode := statusCode res;
     res_headers := <[lowercase name := v]> (res_headers res);
     res_body := res_body res;
     finished := finished res |}.

Definition set := setHeader.

Definition getHeader (name : string) (res : response) : option string :=
  res_headers res !! lowercase name.

(** [response.status(code)] sets the code and sends nothing; once the
    response is ended the status line is gone and keeps its value. *)
Definition status (code : Z) (res : response) : response :=
  if finished res then res
  else {| statusCode := code;
          res_headers := res_headers res;
          res_body := res_body res;
          finished := false |}.

(** [response.end()] *)
Definition end_ (res : response) : response :=
  {| statusCode := statusCode res;
     res_headers := res_headers res;
     res_body := res_body res;
     finished := true |}.

(** [response.send(text)], [text] being the print of a document. *)
Definition send (doc : option json) (res : response) : response :=
  {| statusCode := statusCode res;
     res_headers := res_headers res;
     res_body := doc;
     finished := true |}.

(** The response Express hands to the first middleware. *)
Definition fresh : response :=
  {| statusCode := 200; res_headers := ∅; res_body := None; finished := false |}.
End Response.

(** A middleware either calls [next()] or returns without. *)
Inductive step :=
| Next (res : response)
| Done (res : response).

Definition middleware := request -> response -> step.
Definition handler := request -> response -> js response.

Fixpoint run_chain (ms : list middleware) (req : request) (res : response) : step :=
  match ms with
  | [] => Next res
  | m :: r =>
      match m req res with
      | Next res' => run_chain r req res'
      | Done res' => Done res'
      end
  end.

(** A route: method, path, handler.  A request is matched on its method and
    its path as they are written in the source.  Express matches more: a
    path in another letter case or with a slash at its end, and HEAD on a
    GET route.  Such a request is [Unrouted] here, and nothing is said of
    it. *)
Definition route := (string * string * handler)%type.

Fixpoint find_route (routes : list route) (req : request) : option handler :=
  match routes with
  | [] => None
  | (m, p, f) :: r =>
      if (String.eqb (method req) m && String.eqb (path req) p)%bool then Some f
      else find_route r req
  end.

(** What becomes of a request. *)
Inductive outcome :=
| Replied (h : heap) (res : response)
    (** the program ended the response [res] *)
| Pending (h : heap) (res : response)
    (** the handler returned and the response was never ended: nothing is
        sent and the client waits *)
| Crashed (e : exn)
    (** the handler threw: Express answers 500 *)
| Unrouted (res : response)
    (** no route of the program for this method and path as [find_route]
        matches them: Express answers *)
| Refused
    (** the body parser has turned the body down: Express answers 400, and
        no middleware of the program has run *).

Definition settle (h : heap) (res : response) : outcome :=
  if finished res then Replied h res else Pending h res.

(** The handler [f] is run on the request. *)
Definition handle (f : handler) (h : heap) (req : request) (res : response) : outcome :=
  match f req res h with
  | Ok (res', h') => settle h' res'
  | Throw e => Crashed e
  end.

Definition router (routes : list route) (h : heap) (req : request) (res : response)
  : outcome :=
  match find_route routes req with
  | None => Unrouted res
  | Some f => handle f h req res
  end.

Definition express (ms : list middleware) (routes : list route)
  (h : heap) (req : request) : outcome :=
  match run_chain ms req Response.fresh with
  | Done res => settle h res
  | Next res => router routes h req res
  end.

(** The request was turned down with a 401. *)
Definition rejected (o : outcome) : Prop :=
  exists h res, o = Replied h res /\ statusCode res = 401%Z.

(** [s + v] with a string on the left. *)
Definition plus (s : string) (v : value) : js string :=
  let! t := to_string v in pure (s +:+ t).

(** A header in a template literal: [undefined] prints as such. *)
Definition template (o : option string) : string := default "undefined" o.

(** [a || b] on a header. *)
Definition or_else (o : option string) (d : string) : string :=
  match o with
  | Some s => if truthy (VStr s) then s else d
  | None => d
  end.

(** The CORS middleware is the same in both files: it sets five headers
    and calls [next()]. *)
Definition cors_headers (res : response) : response :=
  let response := Response.setHeader "Access-Control-Allow-Origin" "*" res in
  let response := Response.setHeader "Access-Control-Allow-Methods" "GET, POST, OPTIONS" response in
  let response := Response.setHeader "Access-Control-Allow-Credentials" "true" response in
  let response := Response.setHeader "Access-Control-Allow-Headers" "Content-Type, Authorization" response in
  let response := Response.setHeader "Access-Control-Expose-Headers"
                    ("Origin, Accept, Content-Location, " +:+ "Location, X-Requested-With") response in
  response.

Definition cors : middleware := fun request response =>
  Next (cors_headers response).

(** ** src/index.js *)

Module Index.

(** The authorization middleware, lines 28 to 55, and the values it
    computes on the way. *)
Definition serviceHost (request : request) : option string :=
  Request.get request "Host".

Definition authorizationHeader (request : request) : string :=
  or_else (Request.get request "Authorization") "Bearer open".

Definition token (request : request) : string :=
  replace (authorizationHeader request) "Bearer " EmptyString.

Definition aud (request : request) : string :=
  protocol request +:+ "://" +:+ template (serviceHost request) +:+ originalUrl request.

(** The validity of the token is not verified. *)
Definition isValid : bool := true.

(** The value of the [WWW-Authenticate] header. *)
Definition challenge (request : request) (description : string) : string :=
  "Bearer realm=" +:+ dquote +:+ template (serviceHost request) +:+ dquote
  +:+ ", error=" +:+ dquote +:+ "invalid_token" +:+ dquote
  +:+ ", error_description=" +:+ dquote +:+ description +:+ dquote.

Definition authorization : middleware := fun request response =>
  if String.eqb (method request) "OPTIONS" then Next response
  else
    let authorizationHeader := authorizationHeader request in
    if (negb (truthy (VStr authorizationHeader))
        || negb (startsWith authorizationHeader "Bearer"))%bool
    then
      let response :=
        Response.set "WWW-Authenticate" (challenge request "No Bearer token provided.") response in
      Done (Response.end_ (Response.status 401 response))
    else if negb isValid then
      let response :=
        Response.set "WWW-Authenticate" (challenge request "Token error description.") response in
      Done (Response.end_ (Response.status 401 response))
    else Next response.

(** [app.get('/cds-services', ...)], lines 63 to 90. *)
Definition discovery : handler := fun request response =>
  let! prefetch := new_object [("requestedPatient", VStr "Patient/{{context.patientId}}")] in
  let! patientViewExample := new_object
    [("hook", VStr "patient-view");
     ("id", VStr "patient-view-example");
     ("title", VStr "Example patient-view CDS Service");
     ("description", VStr "Displays the name and gender of the patient");
     ("prefetch", prefetch)] in
  let! orderSelectExample := new_object
    [("hook", VStr "order-select");
     ("id", VStr "order-select-example");
     ("title", VStr "Example order-select CDS Service");
     ("description", VStr "Suggests prescribing Aspirin 81 MG Oral Tablets")] in
  let! services := new_array [patientViewExample; orderSelectExample] in
  let! discoveryEndpointServices := new_object [("services", services)] in
  let! text := JSON_stringify discoveryEndpointServices in
  pure (Response.send text response).

(** [app.post('/cds-services/patient-view-example', ...)], lines 99 to 124. *)
Definition patient_view_example : handler := fun request response =>
  let! prefetch := get_prop (body request) "prefetch" in
  let! requestedPatient := get_prop prefetch "requestedPatient" in
  let! patientResource := get_prop requestedPatient "resource" in
  let! name := get_prop patientResource "name" in
  let! name0 := get_index name 0 in
  let! given := get_prop name0 "given" in
  let! given0 := get_index given 0 in
  let! summary := plus "Now seeing: " given0 in
  let summary := summary +:+ " " in
  let! name := get_prop patientResource "name" in
  let! name0 := get_index name 0 in
  let! family := get_prop name0 "family" in
  let! family0 := get_index family 0 in
  let! summary := plus summary family0 in
  let! source := new_object
    [("label", VStr "CDS Service Tutorial");
     ("url", VStr "https://github.com/cerner/cds-services-tutorial/wiki/Patient-View-Service")] in
  let! link := new_object
    [("label", VStr "Learn more about CDS Hooks");
     ("url", VStr "http://cds-hooks.org");
     ("type", VStr "absolute")] in
  let! links := new_array [link] in
  let! card := new_object
    [("summary", VStr summary);
     ("indicator", VStr "info");
     ("source", source);
     ("links", links)] in
  let! cards := new_array [card] in
  let! patientViewCard := new_object [("cards", cards)] in
  let! text := JSON_stringify patientViewCard in
  pure (Response.send text response).

(** [context.medicationCodeableConcept.coding[0].code] *)
Definition providerOrderedMedication (context : value) : js value :=
  let! medicationCodeableConcept := get_prop context "medicationCodeableConcept" in
  let! coding := get_prop medicationCodeableConcept "coding" in
  let! coding0 := get_index coding 0 in
  get_prop coding0 "code".

(** Lines 155 to 216.  [newMedicationRequest] is [context]: the same
    reference. *)
Definition createMedicationResponseCard (context : value) : js value :=
  let! providerOrderedMedication := providerOrderedMedication context in
  if strict_eq providerOrderedMedication (VStr "243670") then
    let! source := new_object
      [("label", VStr "CDS Service Tutorial");
       ("url", VStr "https://github.com/cerner/cds-services-tutorial/wiki/Order-Select-Service")] in
    let! card := new_object
      [("summary", VStr "Currently prescribing a low-dose Aspirin");
       ("indicator", VStr "info");
       ("source", source)] in
    let! cards := new_array [card] in
    new_object [("cards", cards)]
  else
    let newMedicationRequest := context in
    let! coding0 := new_object
      [("display", VStr "Aspirin 81 MG Oral Tablet");
       ("system", VStr "http://www.nlm.nih.gov/research/umls/rxnorm");
       ("code", VStr "243670")] in
    let! coding := new_array [coding0] in
    let! medicationCodeableConcept := new_object
      [("text", VStr "Aspirin 81 MG Oral Tablet");
       ("coding", coding)] in
    let! _ := set_prop newMedicationRequest "medicationCodeableConcept" medicationCodeableConcept in
    let! action := new_object
      [("type", VStr "create");
       ("description", VStr "Modifying existing medication order to be Aspirin");
       ("resource", newMedicationRequest)] in
    let! actions := new_array [action] in
    let! suggestion := new_object
      [("label", VStr "Switch to low-dose Aspirin");
       ("actions", actions)] in
    let! suggestions := new_array [suggestion] in
    let! source := new_object
      [("label", VStr "CDS Service Tutorial");
       ("url", VStr "https://github.com/cerner/cds-services-tutorial/wiki/Order-Select-Service")] in
    let! card := new_object
      [("summary", VStr "Reduce cardiovascular risks, prescribe daily 81 MG Aspirin");
       ("indicator", VStr "warning");
       ("suggestions", suggestions);
       ("source", source)] in
    let! cards := new_array [card] in
    new_object [("cards", cards)].

(** The condition of the order-select handler, [&&] evaluating its right
    side only when the left one holds. *)
Definition medication_chosen (draftOrder selections : value) : js bool :=
  let! resourceType := get_prop draftOrder "resourceType" in
  if literal_includes [VStr "MedicationRequest"; VStr "MedicationOrder"] resourceType then
    let! _ := method_of selections in
    let! resourceType := get_prop draftOrder "resourceType" in
    let! resourceType := to_string resourceType in
    let! id := get_prop draftOrder "id" in
    let! id := to_string id in
    let! selected := includes selections (resourceType +:+ "/" +:+ id) in
    if selected then
      let! medicationCodeableConcept := get_prop draftOrder "medicationCodeableConcept" in
      pure (truthy medicationCodeableConcept)
    else pure false
  else pure false.

(** [app.post('/cds-services/order-select-example', ...)], lines 135 to
    148.  After the [if], [response.status(200)]. *)
Definition order_select_example : handler := fun request response =>
  let! context := get_prop (body request) "context" in
  let! draftOrders := get_prop context "draftOrders" in
  let! entry := get_prop draftOrders "entry" in
  let! entry0 := get_index entry 0 in
  let! draftOrder := get_prop entry0 "resource" in
  let! context := get_prop (body request) "context" in
  let! selections := get_prop context "selections" in
  let! chosen := medication_chosen draftOrder selections in
  let! response :=
    (if chosen then
       let! responseCard := createMedicationResponseCard draftOrder in
       let! text := JSON_stringify responseCard in
       pure (Response.send text response)
     else pure response) in
  pure (Response.status 200 response).

Definition middlewares : list middleware := [cors; authorization].

Definition routes : list route :=
  [("GET", "/cds-services", discovery);
   ("POST", "/cds-services/patient-view-example", patient_view_example);
   ("POST", "/cds-services/order-select-example", order_select_example)].

Definition app : heap -> request -> outcome := express middlewares routes.

End Index.

(** ** src/unnamed/part_000 *)

Module Part000.

(** [app.get('/cds-services', ...)], lines 30 to 57. *)
Definition discovery : handler := fun request response =>
  let! prefetch := new_object [("requestedPatient", VStr "Patient/{{Patient.id}}")] in
  let! patientViewExample := new_object
    [("hook", VStr "patient-view");
     ("id", VStr "patient-view-example");
     ("title", VStr "Example patient-view CDS Service");
     ("description", VStr "Displays the name and gender of the patient");
     ("prefetch", prefetch)] in
  let! medicationPrescribeExample := new_object
    [("hook", VStr "medication-prescribe");
     ("id", VStr "medication-prescribe-example");
     ("title", VStr "Example medication-prescribe CDS Service");
     ("description", VStr "Suggests prescribing Aspirin 81 MG Oral Tablets")] in
  let! services := new_array [patientViewExample; medicationPrescribeExample] in
  let! discoveryEndpointServices := new_object [("services", services)] in
  let! text := JSON_stringify discoveryEndpointServices in
  pure (Response.send text response).

(** [app.post('/cds-services/patient-view-example', ...)], lines 66 to 87. *)
Definition patient_view_example : handler := fun request response =>
  let! prefetch := get_prop (body request) "prefetch" in
  let! requestedPatient := get_prop prefetch "requestedPatient" in
  let! patientResource := get_prop requestedPatient "resource" in
  let! name := get_prop patientResource "name" in
  let! name0 := get_index name 0 in
  let! given := get_prop name0 "given" in
  let! given0 := get_index given 0 in
  let! summary := plus "Now seeing: " given0 in
  let summary := summary +:+ " " in
  let! name := get_prop patientResource "name" in
  let! name0 := get_index name 0 in
  let! family := get_prop name0 "family" in
  let! family0 := get_index family 0 in
  let! summary := plus summary family0 in
  let! link := new_object
    [("label", VStr "Learn more about CDS Hooks");
     ("url", VStr "http://cds-hooks.org");
     ("type", VStr "absolute")] in
  let! links := new_array [link] in
  let! card := new_object
    [("summary", VStr summary);
     ("indicator", VStr "info");
     ("links", links)] in
  let! cards := new_array [card] in
  let! patientViewCard := new_object [("cards", cards)] in
  let! text := JSON_stringify patientViewCard in
  pure (Response.send text response).

(** [context.medicationCodeableConcept.coding[0].code] *)
Definition providerOrderedMedication (context : value) : js value :=
  let! medicationCodeableConcept := get_prop context "medicationCodeableConcept" in
  let! coding := get_prop medicationCodeableConcept "coding" in
  let! coding0 := get_index coding 0 in
  get_prop coding0 "code".

(** Lines 116 to 171.  [newMedicationOrder] is [context]: the same
    reference. *)
Definition createMedicationResponseCard (context : value) : js value :=
  let! providerOrderedMedication := providerOrderedMedication context in
  if strict_eq providerOrderedMedication (VStr "243670") then
    let! card := new_object
      [("summary", VStr "Currently prescribing a low-dose Aspirin");
       ("indicator", VStr "info")] in
    let! cards := new_array [card] in
    new_object [("cards", cards)]
  else
    let newMedicationOrder := context in
    let! coding0 := new_object
      [("display", VStr "Aspirin 81 MG Oral Tablet");
       ("system", VStr "http://www.nlm.nih.gov/research/umls/rxnorm");
       ("code", VStr "243670")] in
    let! coding := new_array [coding0] in
    let! medicationCodeableConcept := new_object
      [("text", VStr "Aspirin 81 MG Oral Tablet");
       ("coding", coding)] in
    let! _ := set_prop newMedicationOrder "medicationCodeableConcept" medicationCodeableConcept in
    let! action := new_object
      [("type", VStr "create");
       ("resource", newMedicationOrder)] in
    let! actions := new_array [action] in
    let! suggestion := new_object
      [("label", VStr "Switch to low-dose Aspirin");
       ("actions", actions)] in
    let! suggestions := new_array [suggestion] in
    let! source := new_object
      [("label", VStr "Learn more about Suggestions");
       ("url", VStr "http://cds-hooks.org/#cds-service-response")] in
    let! card := new_object
      [("summary", VStr "Reduce cardiovascular risks, prescribe daily 81 MG Aspirin");
       ("indicator", VStr "warning");
       ("suggestions", suggestions);
       ("source", source)] in
    let! cards := new_array [card] in
    new_object [("cards", cards)].

(** [app.post('/cds-services/medication-prescribe-example', ...)], lines
    98 to 109. *)
Definition medication_prescribe_example : handler := fun request response =>
  let! context := get_prop (body request) "context" in
  let! context := get_index context 0 in
  let! medicationCodeableConcept := get_prop context "medicationCodeableConcept" in
  let! response :=
    (if truthy medicationCodeableConcept then
       let! responseCard := createMedicationResponseCard context in
       let! text := JSON_stringify responseCard in
       pure (Response.send text response)
     else pure response) in
  pure (Response.status 200 response).

(** The file installs the CORS middleware and no other. *)
Definition middlewares : list middleware := [cors].

Definition routes : list route :=
  [("GET", "/cds-services", discovery);
   ("POST", "/cds-services/patient-view-example", patient_view_example);
   ("POST", "/cds-services/medication-prescribe-example", medication_prescribe_example)].

Definition app : heap -> request -> outcome := express middlewares routes.

End Part000.

(** ** Sample requests *)

(** A request with the headers [hs], whose names Node keeps in lower case
    (of a name that comes twice, the first), and the parsed body [b]. *)
Definition mk_request (m p : string) (hs : list (string * string)) (b : value) : request :=
  {| method := m; protocol := "http"; originalUrl := p; path := p;
     headers := list_to_map (prod_map lowercase id <$> hs); body := b |}.

(** [bodyParser.json()] in its default, strict mode takes an object or an
    array and turns down every other document. *)
Definition accepted (doc : json) : bool :=
  match doc with
  | JObj _ | JArr _ => true
  | _ => false
  end.

(** The body parser followed by the application, for a request whose body
    is the text of the document [doc]; a request without a body comes with
    the empty object. *)
Definition serve (app : heap -> request -> outcome)
  (m p : string) (hs : list (string * string)) (doc : json) : outcome :=
  if accepted doc then
    match parse doc [] with
    | Ok (b, h) => app h (mk_request m p hs b)
    | Throw e => Crashed e
    end
  else Refused.

Definition concept (name code : string) : json :=
  JObj [("text", JStr name);
        ("coding", JArr [JObj [("display", JStr name);
                               ("system", JStr "http://www.nlm.nih.gov/research/umls/rxnorm");
                               ("code", JStr code)]])].

Definition order (members : list (string * json)) : json :=
  JObj (("resourceType", JStr "MedicationRequest") :: ("id", JStr "123") :: members).

Definition order_select_body (selections : list json) (draft : json) : json :=
  JObj [("context",
         JObj [("selections", JArr selections);
               ("draftOrders", JObj [("entry", JArr [JObj [("resource", draft)]])])])].

Definition medication_prescribe_body (draft : json) : json :=
  JObj [("context", JArr [draft])].

Definition patient_view_body (given family : list json) : json :=
  JObj [("prefetch",
         JObj [("requestedPatient",
                JObj [("resource",
                       JObj [("resourceType", JStr "Patient");
                             ("name", JArr [JObj [("given", JArr given);
                                                  ("family", JArr family)]])])])])].

(** ** Vocabulary of the statements *)

(** A step of a path into a value: a property or an index. *)
Inductive key :=
| Field (k : string)
| Item (i : nat).

(** [v.a[i].b...] *)
Fixpoint get_path (v : value) (p : list key) : js value :=
  match p with
  | [] => pure v
  | Field k :: r => let! w := get_prop v k in get_path w r
  | Item i :: r => let! w := get_index v i in get_path w r
  end.

(** In the heap [h] the path [p] from [v] is read without an error and
    leads to [w]. *)
Definition reads (h : heap) (v : value) (p : list key) (w : value) : Prop :=
  get_path v p h = Ok (w, h).

(** The elements of an array. *)
Definition elements (h : heap) (v : value) : option (list value) :=
  match v with
  | VRef l => match h !! l with Some (Arr elems) => Some elems | _ => None end
  | _ => None
  end.

(** [medicationCodeableConcept.coding[0].code], from the order. *)
Definition code_path : list key :=
  [Field "medicationCodeableConcept"; Field "coding"; Item 0; Field "code"].

(** [prefetch.requestedPatient.resource.name[0].given[0]] and
    [...family[0]], from the body of the request. *)
Definition given_path : list key :=
  [Field "prefetch"; Field "requestedPatient"; Field "resource";
   Field "name"; Item 0; Field "given"; Item 0].
Definition family_path : list key :=
  [Field "prefetch"; Field "requestedPatient"; Field "resource";
   Field "name"; Item 0; Field "family"; Item 0].

(** [context.draftOrders.entry[0].resource] and [context[0]], from the body
    of the request. *)
Definition draft_order_path : list key :=
  [Field "context"; Field "draftOrders"; Field "entry"; Item 0; Field "resource"].
Definition context_path : list key := [Field "context"; Item 0].

(** From a card response, the resource of the first action of the first
    suggestion of the first card. *)
Definition suggested_resource_path : list key :=
  [Field "cards"; Item 0; Field "suggestions"; Item 0;
   Field "actions"; Item 0; Field "resource"].

(** The card response [response] holds exactly one card, a warning, with
    exactly one suggestion, with exactly one action, of type [create], whose
    resource has the code [243670]. *)
Definition warning_with_one_create_action (h : heap) (response : value) : Prop :=
  exists cards card suggestions suggestion actions action,
    reads h response [Field "cards"] cards /\
    elements h cards = Some [card] /\
    reads h card [Field "indicator"] (VStr "warning") /\
    reads h card [Field "suggestions"] suggestions /\
    elements h suggestions = Some [suggestion] /\
    reads h suggestion [Field "actions"] actions /\
    elements h actions = Some [action] /\
    reads h action [Field "type"] (VStr "create") /\
    reads h action (Field "resource" :: code_path) (VStr "243670").

(** The five headers of the CORS middleware. *)
Definition cors_headers_present (res : response) : Prop :=
  Response.getHeader "Access-Control-Allow-Origin" res = Some "*" /\
  Response.getHeader "Access-Control-Allow-Methods" res = Some "GET, POST, OPTIONS" /\
  Response.getHeader "Access-Control-Allow-Credentials" res = Some "true" /\
  Response.getHeader "Access-Control-Allow-Headers" res = Some "Content-Type, Authorization" /\
  Response.getHeader "Access-Control-Expose-Headers" res
    = Some "Origin, Accept, Content-Location, Location, X-Requested-With".

(** [text] occurs in [s]. *)
Definition occurs (text s : string) : Prop :=
  exists pre post, s = pre +:+ text +:+ post.

(** A handler that returns has sent a document through the response it was
    given, or, on the medication routes, has sent one and set the status, or
    has only set the status. *)
Definition handled (res res' : response) : Prop :=
  (exists doc, res' = Response.send doc res) \/
  (exists doc, res' = Response.status 200 (Response.send doc res)) \/
  res' = Response.status 200 res.

Definition well_behaved (f : handler) : Prop :=
  forall req res h res' h', f req res h = Ok (res', h') -> handled res res'.

(** The response is left open with status 200 and no body: nothing goes
    back to the client. *)
Definition never_answered (o : outcome) : Prop :=
  exists h res, o = Pending h res /\
    statusCode res = 200%Z /\ res_body res = None /\ finished res = false.

(** The request is answered with status 200 and the document [doc]. *)
Definition answered_with (doc : json) (o : outcome) : Prop :=
  exists h res, o = Replied h res /\
    statusCode res = 200%Z /\ res_body res = Some doc.

(** A computation run from the empty heap, for its result alone. *)
Definition run {A} (m : js A) : result A :=
  match m [] with
  | Ok (a, _) => Ok a
  | Throw e => Throw e
  end.

(** The documents the handlers are expected to send. *)

Definition catalog_index : json :=
  JObj [("services",
    JArr [JObj [("hook", JStr "patient-view");
                ("id", JStr "patient-view-example");
                ("title", JStr "Example patient-view CDS Service");
                ("description", JStr "Displays the name and gender of the patient");
                ("prefetch", JObj [("requestedPatient", JStr "Patient/{{context.patientId}}")])];
          JObj [("hook", JStr "order-select");
                ("id", JStr "order-select-example");
                ("title", JStr "Example order-select CDS Service");
                ("description", JStr "Suggests prescribing Aspirin 81 MG Oral Tablets")]])].

Definition catalog_part000 : json :=
  JObj [("services",
    JArr [JObj [("hook", JStr "patient-view");
                ("id", JStr "patient-view-example");
                ("title", JStr "Example patient-view CDS Service");
                ("description", JStr "Displays the name and gender of the patient");
                ("prefetch", JObj [("requestedPatient", JStr "Patient/{{Patient.id}}")])];
          JObj [("hook", JStr "medication-prescribe");
                ("id", JStr "medication-prescribe-example");
                ("title", JStr "Example medication-prescribe CDS Service");
                ("description", JStr "Suggests prescribing Aspirin 81 MG Oral Tablets")]])].

Definition documentation_links : json :=
  JArr [JObj [("label", JStr "Learn more about CDS Hooks");
              ("url", JStr "http://cds-hooks.org");
              ("type", JStr "absolute")]].

Definition patient_card_index (summary : string) : json :=
  JObj [("cards",
    JArr [JObj [("summary", JStr summary);
                ("indicator", JStr "info");
                ("source",
                 JObj [("label", JStr "CDS Service Tutorial");
                       ("url", JStr "https://github.com/cerner/cds-services-tutorial/wiki/Patient-View-Service")]);
                ("links", documentation_links)]])].

Definition patient_card_part000 (summary : string) : json :=
  JObj [("cards",
    JArr [JObj [("summary", JStr summary);
                ("indicator", JStr "info");
                ("links", documentation_links)]])].

Definition info_card_index : json :=
  JObj [("cards",
    JArr [JObj [("summary", JStr "Currently prescribing a low-dose Aspirin");
                ("indicator", JStr "info");
                ("source",
                 JObj [("label", JStr "CDS Service Tutorial");
                       ("url", JStr "https://github.com/cerner/cds-services-tutorial/wiki/Order-Select-Service")])]])].

Definition info_card_part000 : json :=
  JObj [("cards",
    JArr [JObj [("summary", JStr "Currently prescribing a low-dose Aspirin");
                ("indicator", JStr "info")]])].

(** The suggestion cards, around the resource of the action. *)

Definition suggestion_card_index (resource : json) : json :=
  JObj [("cards",
    JArr [JObj [("summary", JStr "Reduce cardiovascular risks, prescribe daily 81 MG Aspirin");
                ("indicator", JStr "warning");
                ("suggestions",
                 JArr [JObj [("label", JStr "Switch to low-dose Aspirin");
                             ("actions",
                              JArr [JObj [("type", JStr "create");
                                          ("description", JStr "Modifying existing medication order to be Aspirin");
                                          ("resource", resource)]])]]);
                ("source",
                 JObj [("label", JStr "CDS Service Tutorial");
                       ("url", JStr "https://github.com/cerner/cds-services-tutorial/wiki/Order-Select-Service")])]])].

Definition suggestion_card_part000 (resource : json) : json :=
  JObj [("cards",
    JArr [JObj [("summary", JStr "Reduce cardiovascular risks, prescribe daily 81 MG Aspirin");
                ("indicator", JStr "warning");
                ("suggestions",
                 JArr [JObj [("label", JStr "Switch to low-dose Aspirin");
                             ("actions",
                              JArr [JObj [("type", JStr "create");
                                          ("resource", resource)]])]]);
                ("source",
                 JObj [("label", JStr "Learn more about Suggestions");
                       ("url", JStr "http://cds-hooks.org/#cds-service-response")])]])].

(** A card response that serialises to [doc] has exactly one card, which has
    the indicator and the summary given and no suggestions. *)
Definition one_card_without_suggestions (indicator summary : string) (doc : json) : Prop :=
  exists members,
    doc = JObj [("cards", JArr [JObj members])] /\
    (("indicator", JStr indicator) ∈ members) /\
    (("summary", JStr summary) ∈ members) /\
    (forall j, ("suggestions", j) ∉ members).

(** What the card generator [create] returns for the order [context]. *)

Definition returns_suggestion (create : value -> js value) (h : heap) (context : value)
  : Prop :=
  exists response h',
    create context h = Ok (response, h') /\
    warning_with_one_create_action h' response.

Definition returns_card (create : value -> js value) (doc : json) (h : heap)
  (context : value) : Prop :=
  exists response h',
    create context h = Ok (response, h') /\
    JSON_stringify response h' = Ok (Some doc, h').

(** The handler [f] sends the document [doc] through the response [res]. *)
Definition sends (f : handler) (doc : json) (h : heap) (req : request) (res : response)
  : Prop :=
  exists h', f req res h = Ok (Response.send (Some doc) res, h').

(** ** Sample data *)

(** The value and the heap the body parser makes of a document. *)
Definition parsed (doc : json) : value * heap :=
  match parse doc [] with
  | Ok r => r
  | Throw _ => (VUndef, [])
  end.

Definition ibuprofen_order : json :=
  order [("medicationCodeableConcept", concept "Ibuprofen 200 MG Oral Tablet" "999999")].

Definition aspirin_order : json :=
  order [("medicationCodeableConcept", concept "Aspirin 81 MG Oral Tablet" "243670")].

Definition order_without_medication : json := order [("status", JStr "draft")].

Definition observation : json :=
  JObj [("resourceType", JStr "Observation"); ("id", JStr "123");
        ("medicationCodeableConcept", concept "Ibuprofen 200 MG Oral Tablet" "999999")].

Definition ana_lee : json := patient_view_body [JStr "Ana"] [JStr "Lee"].

(** The body of a request that carries none, as the body parser leaves it. *)
Definition no_body : json := JObj [].

Definition get_catalog (hs : list (string * string)) : request :=
  mk_request "GET" "/cds-services" hs (parsed no_body).1.

Definition options_catalog (hs : list (string * string)) : request :=
  mk_request "OPTIONS" "/cds-services" hs (parsed no_body).1.

(** ** Vocabulary of the further properties *)

(** The value [v] refers to no cell at or above [n]. *)
Definition below (n : nat) (v : value) : bool :=
  match v with
  | VRef l => l <? n
  | _ => true
  end.

Definition cell_below (n : nat) (c : cell) : bool :=
  match c with
  | Obj props => forallb (fun kv => below n kv.2) props
  | Arr elems => forallb (below n) elems
  end.

(** Every cell refers to older cells only, as in the heap of a document
    that has been parsed: the heap has no cycle. *)
Fixpoint ordered_from (n : nat) (h : heap) : bool :=
  match h with
  | [] => true
  | c :: r => cell_below n c && ordered_from (S n) r
  end.

Definition ordered (h : heap) : bool := ordered_from 0 h.

(** The members of a document after an assignment to the member [k], as
    [assign_prop] on the properties of an object. *)
Fixpoint with_member (k : string) (j : json) (members : list (string * json))
  : list (string * json) :=
  match members with
  | [] => [(k, j)]
  | (k', j') :: r =>
      if String.eqb k k' then (k, j) :: r else (k', j') :: with_member k j r
  end.



(** From the heap [h] to the heap [h'] nothing has changed but the
    [medicationCodeableConcept] of the order [context]: the order keeps its
    keys, in their places, and its other properties, and every other cell
    of [h] is as it was. *)
Definition keeps_all_but_concept (h h' : heap) (context : value) : Prop :=
  exists l props props',
    context = VRef l /\ h !! l = Some (Obj props) /\ h' !! l = Some (Obj props') /\
    props'.*1 = props.*1 /\
    (forall k, k <> "medicationCodeableConcept" ->
               lookup_prop k props' = lookup_prop k props) /\
    (forall l', l' <> l -> l' < length h -> h' !! l' = h !! l').

(** The handler [f], when it returns, has only added cells to the heap. *)
Definition only_allocates (f : handler) : Prop :=
  forall req res h res' h', f req res h = Ok (res', h') -> exists t, h' = h ++ t.

(** [prefetch.requestedPatient.resource.name[0].given] and [...family]. *)
Definition given_names_path : list key :=
  [Field "prefetch"; Field "requestedPatient"; Field "resource";
   Field "name"; Item 0; Field "given"].

(** The draft order of the request and its selections, as the order-select
    handler expects them: the order has a string [resourceType] and an [id]
    of text [ids], and [selections] is an array. *)
Definition order_select_context (h : heap) (body draftOrder : value)
  (rt ids : string) (sel : list value) : Prop :=
  exists selections id,
    reads h body draft_order_path draftOrder /\
    reads h body [Field "context"; Field "selections"] selections /\
    reads h draftOrder [Field "resourceType"] (VStr rt) /\
    reads h draftOrder [Field "id"] id /\
    to_string id h = Ok (ids, h) /\
    elements h selections = Some sel.

(** * Examples *)

Example parse_stringify :
  (let! v := parse (JObj [("a", JArr [JNum "1"; JNull]); ("b", JStr "x"); ("a", JBool true)]) in
   JSON_stringify v) [] =
  Ok (Some (JObj [("a", JBool true); ("b", JStr "x")]), [Arr [VNum "1"; VNull]; Obj [("a", VBool true); ("b", VStr "x")]]).
Proof. reflexivity. Qed.

Example to_string_samples :
  (let! v := parse (JArr [JNum "12"; JNull; JArr [JStr "a"; JBool false]; JObj []]) in to_string v) [] =
  Ok ("12,,a,false,[object Object]", [Arr [VStr "a"; VBool false]; Obj []; Arr [VNum "12"; VNull; VRef 0; VRef 1]]).
Proof. reflexivity. Qed.

(** * Reasoning about computations *)

Lemma bind_eq {A B} (m : js A) (f : A -> js B) h a h' :
  m h = Ok (a, h') -> bind m f h = f a h'.
Proof. unfold bind. by intros ->. Qed.

Lemma bind_ok {A B} (m : js A) (f : A -> js B) h r :
  bind m f h = Ok r -> exists a h', m h = Ok (a, h') /\ f a h' = Ok r.
Proof. unfold bind. destruct (m h) as [[a h']|e]; [eauto | discriminate]. Qed.

Lemma pure_ok {A} (a b : A) h h' : pure a h = Ok (b, h') -> b = a /\ h' = h.
Proof. unfold pure. by intros [= -> ->]. Qed.

(** Rewrites the computations at the head of the goal with what the
    hypotheses say they return. *)
Ltac steps :=
  repeat match goal with
         | E : ?m ?h = Ok (_, _) |- context [bind ?m _ ?h] =>
             rewrite (bind_eq _ _ _ _ _ E)
         end.

(** Takes a successful sequence apart. *)
Ltac invert_binds H :=
  repeat (apply bind_ok in H as (? & ? & ? & H)).

(** Two reads of the same place return the same value. *)
Ltac unify_reads :=
  repeat match goal with
         | E1 : ?m ?h = Ok (?a, ?h), E2 : ?m ?h = Ok (?b, ?h) |- _ =>
             assert (b = a) by congruence; subst b; clear E2
         end.

(** ** Reading leaves the heap as it is *)

Lemma get_prop_heap v k h w h' : get_prop v k h = Ok (w, h') -> h' = h.
Proof.
  unfold get_prop. destruct v; try congruence.
  destruct (h !! l) as [[?|?]|]; congruence.
Qed.

Lemma get_index_heap v i h w h' : get_index v i h = Ok (w, h') -> h' = h.
Proof.
  unfold get_index. destruct v; try congruence.
  destruct (h !! l) as [[?|?]|]; congruence.
Qed.

Lemma to_string_heap v h s h' : to_string v h = Ok (s, h') -> h' = h.
Proof. unfold to_string. destruct (to_string_fuel _ _ _); congruence. Qed.

Lemma includes_heap v s h b h' : includes v s h = Ok (b, h') -> h' = h.
Proof.
  unfold includes. destruct v; try congruence.
  destruct (h !! l) as [[?|?]|]; congruence.
Qed.

Lemma JSON_stringify_heap v h j h' : JSON_stringify v h = Ok (j, h') -> h' = h.
Proof. unfold JSON_stringify. destruct (to_json _ _ _); congruence. Qed.

Lemma get_path_heap p : forall v h w h', get_path v p h = Ok (w, h') -> h' = h.
Proof.
  induction p as [|[k|i] p IH]; intros v h w h' H; cbn in H.
  - by apply pure_ok in H as [_ ->].
  - apply bind_ok in H as (u & h1 & Hu & H).
    apply get_prop_heap in Hu as ->. eauto.
  - apply bind_ok in H as (u & h1 & Hu & H).
    apply get_index_heap in Hu as ->. eauto.
Qed.

(** ** Properties *)

Lemma strict_eq_ne a b : a <> b -> strict_eq a b = false.
Proof.
  intros Hne. destruct a; cbn; rewrite bool_decide_eq_false_2 by done;
    by rewrite ?andb_false_r.
Qed.

Lemma get_prop_not_nullish v k h r : get_prop v k h = Ok r -> v <> VUndef.
Proof. by destruct v. Qed.

(** A property that is there is a property of an object of the heap. *)
Lemma get_prop_defined v k h w h' :
  get_prop v k h = Ok (w, h') -> w <> VUndef ->
  exists l props, v = VRef l /\ h !! l = Some (Obj props) /\ lookup_prop k props = Some w.
Proof.
  unfold get_prop. intros Hget Hw. destruct v; try congruence.
  destruct (h !! l) as [[props|?]|] eqn:Hl; try congruence.
  exists l, props. destruct (lookup_prop k props); cbn in Hget; [|congruence].
  repeat split; congruence.
Qed.

Lemma lookup_assign_prop k v props : lookup_prop k (assign_prop k v props) = Some v.
Proof.
  induction props as [|[k' v'] props IH]; cbn.
  - by rewrite String.eqb_refl.
  - destruct (String.eqb k k') eqn:Hk; cbn; by rewrite ?String.eqb_refl, ?Hk.
Qed.

Lemma lookup_assign_prop_ne k k' v props :
  k <> k' -> lookup_prop k' (assign_prop k v props) = lookup_prop k' props.
Proof.
  intros Hne.
  assert (Hf : String.eqb k' k = false) by (apply String.eqb_neq; congruence).
  induction props as [|[k0 v0] props IH]; cbn.
  - by rewrite Hf.
  - destruct (String.eqb k k0) eqn:Hk; cbn.
    + apply String.eqb_eq in Hk as <-. by rewrite Hf.
    + by rewrite IH.
Qed.

(** ** Paths *)

Lemma get_path_field v k p h w h' :
  get_path v (Field k :: p) h = Ok (w, h') ->
  exists u, get_prop v k h = Ok (u, h) /\ get_path u p h = Ok (w, h').
Proof.
  cbn. intros (u & h1 & Hu & Hp)%bind_ok.
  pose proof (get_prop_heap _ _ _ _ _ Hu) as ->. eauto.
Qed.

Lemma get_path_item v i p h w h' :
  get_path v (Item i :: p) h = Ok (w, h') ->
  exists u, get_index v i h = Ok (u, h) /\ get_path u p h = Ok (w, h').
Proof.
  cbn. intros (u & h1 & Hu & Hp)%bind_ok.
  pose proof (get_index_heap _ _ _ _ _ Hu) as ->. eauto.
Qed.

Lemma get_path_nil v h w h' : get_path v [] h = Ok (w, h') -> w = v /\ h' = h.
Proof. apply pure_ok. Qed.

(** Takes the reading of a path apart, one step after the other. *)
Ltac path_inv H :=
  repeat first
    [ apply get_path_field in H as (? & ? & H)
    | apply get_path_item in H as (? & ? & H) ];
  apply get_path_nil in H as [? ?]; subst.

(** ** The heap as a base and the cells allocated since *)

Lemma lookup_fresh (base t : heap) (k : nat) : (base ++ t) !! (length base + k) = t !! k.
Proof. rewrite lookup_app_r by lia. f_equal. lia. Qed.

Lemma lookup_fresh_at (base t : heap) (n k : nat) :
  length base = n -> (base ++ t) !! (n + k) = t !! k.
Proof. intros <-. apply lookup_fresh. Qed.

Lemma lookup_updated (base t : heap) (l : loc) (c : cell) :
  l < length base -> (<[l := c]> base ++ t) !! l = Some c.
Proof.
  intros Hl. rewrite lookup_app_l by (rewrite length_insert; lia).
  by apply list_lookup_insert_eq.
Qed.

Lemma alloc_frame c (base t : heap) :
  alloc c (base ++ t) = Ok (VRef (length base + length t), base ++ (t ++ [c])).
Proof. unfold alloc. rewrite length_app, <- app_assoc. reflexivity. Qed.

Lemma set_prop_base (base t : heap) l props k w :
  base !! l = Some (Obj props) ->
  set_prop (VRef l) k w (base ++ t) = Ok (tt, <[l := Obj (assign_prop k w props)]> base ++ t).
Proof.
  intros Hl. unfold set_prop. rewrite (lookup_app_l_Some _ _ _ _ Hl).
  cbv beta iota. rewrite insert_app_l by by eapply lookup_lt_Some. reflexivity.
Qed.

Ltac alloc_step :=
  unfold new_object, new_array;
  rewrite (bind_eq _ _ _ _ _ (alloc_frame _ _ _));
  cbn [length app].

(** ** Fuel *)

Lemma mapM_impl {A B} (f g : A -> result B) l ys :
  (forall x y, f x = Ok y -> g x = Ok y) -> mapM f l = Ok ys -> mapM g l = Ok ys.
Proof.
  intros Hfg. revert ys. induction l as [|x l IH]; intros ys; cbn; [done|].
  destruct (f x) as [y|] eqn:Hx; [|done]. rewrite (Hfg _ _ Hx).
  destruct (mapM f l) as [zs|]; [|done]. by rewrite (IH zs eq_refl).
Qed.

(** More fuel does not change a document. *)
Lemma to_json_fuel n : forall m h v j,
  to_json n h v = Ok j -> n <= m -> to_json m h v = Ok j.
Proof.
  induction n as [|n IH]; intros m h v j Hj Hle.
  - destruct v; try (destruct m; exact Hj). discriminate.
  - destruct v; try (destruct m; exact Hj).
    destruct m as [|m]; [lia|]. cbn in Hj |- *.
    destruct (h !! l) as [[props|elems]|]; [| |done].
    + destruct (mapM _ (own_properties props)) as [ms|] eqn:Hms in Hj; [|done].
      erewrite mapM_impl; [exact Hj| |exact Hms].
      intros [k w] [k' j']. destruct (to_json n h w) as [jw|] eqn:Hw; [|done].
      rewrite (IH m h w jw Hw) by lia. done.
    + destruct (mapM _ elems) as [js|] eqn:Hjs in Hj; [|done].
      erewrite mapM_impl; [exact Hj| |exact Hjs].
      intros w jw Hw. apply (IH m h w jw Hw). lia.
Qed.

Lemma JSON_stringify_fuel n h v j :
  to_json n h v = Ok j -> n <= length h -> JSON_stringify v h = Ok (j, h).
Proof. intros Hj Hle. unfold JSON_stringify. by rewrite (to_json_fuel n _ h v j Hj Hle). Qed.

(** Properties that have names and no indices are listed as they were
    written. *)
Lemma own_properties_named props : named props = true -> own_properties props = props.
Proof.
  unfold own_properties. induction props as [|e props IH]; [done|].
  cbn. intros [He Hr]%andb_true_iff. rewrite (IH Hr).
  destruct props as [|e' r]; [done|]. cbn in Hr |- *.
  apply andb_true_iff in Hr as [He' _]. unfold comes_before.
  by destruct (array_index e.1), (array_index e'.1).
Qed.

(** The document of [n] cells allocated on top of a base. *)
Ltac stringify_fresh n :=
  apply (JSON_stringify_fuel n);
  [ repeat (cbn; rewrite ?lookup_fresh, ?own_properties_named by reflexivity); reflexivity
  | rewrite length_app; cbn; lia ].

(** ** Strings *)

Lemma append_assoc (a b c : string) : (a +:+ b) +:+ c = a +:+ (b +:+ c).
Proof.
  induction a as [|x a IH]; [reflexivity|].
  change (String x ((a +:+ b) +:+ c) = String x (a +:+ (b +:+ c))). by rewrite IH.
Qed.

Lemma plus_text s v h t : to_string v h = Ok (t, h) -> plus s v h = Ok (s +:+ t, h).
Proof. intros H. unfold plus. by rewrite (bind_eq _ _ _ _ _ H). Qed.

Lemma startsWith_Bearer_truthy s : startsWith s "Bearer" = true -> truthy (VStr s) = true.
Proof. by destruct s. Qed.

(** ** Headers *)

Lemma getHeader_setHeader name v res :
  Response.getHeader name (Response.setHeader name v res) = Some v.
Proof. unfold Response.getHeader, Response.setHeader. cbn. apply lookup_insert_eq. Qed.

Lemma getHeader_setHeader_ne name name' v res :
  lowercase name' <> lowercase name ->
  Response.getHeader name (Response.setHeader name' v res) = Response.getHeader name res.
Proof. intros. unfold Response.getHeader, Response.setHeader. cbn. by apply lookup_insert_ne. Qed.

Lemma getHeader_end name res :
  Response.getHeader name (Response.end_ res) = Response.getHeader name res.
Proof. reflexivity. Qed.

Lemma getHeader_status name code res :
  Response.getHeader name (Response.status code res) = Response.getHeader name res.
Proof. unfold Response.status. by destruct (finished res). Qed.

Lemma cors_headers_set res : cors_headers_present (cors_headers res).
Proof.
  unfold cors_headers_present, cors_headers.
  repeat split;
    repeat (first [ rewrite getHeader_setHeader
                  | rewrite getHeader_setHeader_ne by (vm_compute; discriminate) ]);
    reflexivity.
Qed.

(** The 401 of the authorization middleware keeps the headers that are
    there. *)
Lemma cors_headers_kept v res :
  cors_headers_present res ->
  cors_headers_present
    (Response.end_ (Response.status 401 (Response.set "WWW-Authenticate" v res))).
Proof.
  unfold cors_headers_present, Response.set. intros H.
  rewrite !getHeader_end, !getHeader_status.
  by rewrite !getHeader_setHeader_ne by (vm_compute; discriminate).
Qed.

(** ** What the handlers do to the response *)

Lemma handled_status res res' :
  handled res res' -> statusCode res = 200%Z -> statusCode res' = 200%Z.
Proof.
  intros [[doc ->]|[[doc ->]| ->]] H; cbn; [done|done|].
  unfold Response.status. by destruct (finished res).
Qed.

Lemma Index_discovery_handled req res h res' h' :
  Index.discovery req res h = Ok (res', h') -> handled res res'.
Proof.
  unfold Index.discovery. intros H. invert_binds H.
  apply pure_ok in H as [-> _]. left. eauto.
Qed.

Lemma Index_patient_view_handled req res h res' h' :
  Index.patient_view_example req res h = Ok (res', h') -> handled res res'.
Proof.
  unfold Index.patient_view_example. intros H. invert_binds H.
  apply pure_ok in H as [-> _]. left. eauto.
Qed.

Lemma Index_order_select_handled req res h res' h' :
  Index.order_select_example req res h = Ok (res', h') -> handled res res'.
Proof.
  unfold Index.order_select_example. intros H.
  do 7 (apply bind_ok in H as (? & ? & _ & H)).
  apply bind_ok in H as (chosen & ? & _ & H).
  apply bind_ok in H as (r & ? & Hr & H).
  apply pure_ok in H as [-> _].
  destruct chosen.
  - invert_binds Hr. apply pure_ok in Hr as [-> _]. right. left. eauto.
  - apply pure_ok in Hr as [-> _]. right. by right.
Qed.

Lemma Part000_discovery_handled req res h res' h' :
  Part000.discovery req res h = Ok (res', h') -> handled res res'.
Proof.
  unfold Part000.discovery. intros H. invert_binds H.
  apply pure_ok in H as [-> _]. left. eauto.
Qed.

Lemma Part000_patient_view_handled req res h res' h' :
  Part000.patient_view_example req res h = Ok (res', h') -> handled res res'.
Proof.
  unfold Part000.patient_view_example. intros H. invert_binds H.
  apply pure_ok in H as [-> _]. left. eauto.
Qed.

Lemma Part000_medication_prescribe_handled req res h res' h' :
  Part000.medication_prescribe_example req res h = Ok (res', h') -> handled res res'.
Proof.
  unfold Part000.medication_prescribe_example. intros H.
  do 2 (apply bind_ok in H as (? & ? & _ & H)).
  apply bind_ok in H as (concept & ? & _ & H).
  apply bind_ok in H as (r & ? & Hr & H).
  apply pure_ok in H as [-> _].
  destruct (truthy concept).
  - invert_binds Hr. apply pure_ok in Hr as [-> _]. right. left. eauto.
  - apply pure_ok in Hr as [-> _]. right. by right.
Qed.

Lemma find_route_Some routes req f :
  find_route routes req = Some f -> exists m p, (m, p, f) ∈ routes.
Proof.
  induction routes as [|[[m p] g] routes IH]; cbn; [done|].
  destruct (_ && _)%bool.
  - intros [= ->]. exists m, p. left.
  - intros (m' & p' & Hin)%IH. exists m', p'. by right.
Qed.

Lemma router_not_rejected routes h req res :
  (forall m p f, (m, p, f) ∈ routes -> well_behaved f) ->
  statusCode res = 200%Z -> ~ rejected (router routes h req res).
Proof.
  intros Hwb Hres (h' & res' & Hout & H401). unfold router, handle in Hout.
  destruct (find_route routes req) as [f|] eqn:Hf; [|done].
  apply find_route_Some in Hf as (m & p & Hin).
  destruct (f req res h) as [[r hr]|] eqn:Hrun; [|done].
  apply (Hwb _ _ _ Hin) in Hrun. apply handled_status in Hrun; [|done].
  unfold settle in Hout. destruct (finished r); [|done].
  injection Hout as -> ->. congruence.
Qed.

Lemma Index_routes_well_behaved m p f : (m, p, f) ∈ Index.routes -> well_behaved f.
Proof.
  unfold Index.routes. rewrite !elem_of_cons, elem_of_nil.
  intros [[= _ _ ->]|[[= _ _ ->]|[[= _ _ ->]|[]]]] ?????.
  - apply Index_discovery_handled.
  - apply Index_patient_view_handled.
  - apply Index_order_select_handled.
Qed.

Lemma Part000_routes_well_behaved m p f : (m, p, f) ∈ Part000.routes -> well_behaved f.
Proof.
  unfold Part000.routes. rewrite !elem_of_cons, elem_of_nil.
  intros [[= _ _ ->]|[[= _ _ ->]|[[= _ _ ->]|[]]]] ?????.
  - apply Part000_discovery_handled.
  - apply Part000_patient_view_handled.
  - apply Part000_medication_prescribe_handled.
Qed.

(** The application once the authorization middleware has called [next()]. *)
Lemma Index_app_passed h req :
  Index.authorization req (cors_headers Response.fresh) = Next (cors_headers Response.fresh) ->
  Index.app h req = router Index.routes h req (cors_headers Response.fresh).
Proof. unfold Index.app, express. cbn. by intros ->. Qed.

Lemma Index_app_passed_not_rejected h req :
  Index.authorization req (cors_headers Response.fresh) = Next (cors_headers Response.fresh) ->
  ~ rejected (Index.app h req).
Proof.
  intros Hpass. rewrite (Index_app_passed _ _ Hpass).
  apply router_not_rejected; [apply Index_routes_well_behaved | done].
Qed.

(** ** The handlers *)

Lemma Index_discovery_sends req res h :
  exists h', Index.discovery req res h = Ok (Response.send (Some catalog_index) res, h').
Proof.
  eexists. unfold Index.discovery.
  rewrite <- (app_nil_r h) at 1. do 5 alloc_step.
  erewrite bind_eq; [reflexivity|]. stringify_fresh 5.
Qed.

Lemma Part000_discovery_sends req res h :
  exists h', Part000.discovery req res h = Ok (Response.send (Some catalog_part000) res, h').
Proof.
  eexists. unfold Part000.discovery.
  rewrite <- (app_nil_r h) at 1. do 5 alloc_step.
  erewrite bind_eq; [reflexivity|]. stringify_fresh 5.
Qed.

Lemma Index_patient_view_sends h req res given0 family0 g f :
  reads h (body req) given_path given0 ->
  reads h (body req) family_path family0 ->
  to_string given0 h = Ok (g, h) ->
  to_string family0 h = Ok (f, h) ->
  exists h',
    Index.patient_view_example req res h =
    Ok (Response.send (Some (patient_card_index ("Now seeing: " +:+ g +:+ " " +:+ f))) res, h').
Proof.
  unfold reads, given_path, family_path. intros Hg Hf Htg Htf.
  path_inv Hg. path_inv Hf. unify_reads.
  eexists. unfold Index.patient_view_example. steps.
  rewrite (bind_eq _ _ _ _ _ (plus_text _ _ _ _ Htg)). steps.
  rewrite (bind_eq _ _ _ _ _ (plus_text _ _ _ _ Htf)).
  rewrite <- (app_nil_r h) at 1. do 6 alloc_step.
  erewrite bind_eq; [|stringify_fresh 6].
  unfold pure. rewrite !append_assoc. reflexivity.
Qed.

Lemma Part000_patient_view_sends h req res given0 family0 g f :
  reads h (body req) given_path given0 ->
  reads h (body req) family_path family0 ->
  to_string given0 h = Ok (g, h) ->
  to_string family0 h = Ok (f, h) ->
  exists h',
    Part000.patient_view_example req res h =
    Ok (Response.send (Some (patient_card_part000 ("Now seeing: " +:+ g +:+ " " +:+ f))) res, h').
Proof.
  unfold reads, given_path, family_path. intros Hg Hf Htg Htf.
  path_inv Hg. path_inv Hf. unify_reads.
  eexists. unfold Part000.patient_view_example. steps.
  rewrite (bind_eq _ _ _ _ _ (plus_text _ _ _ _ Htg)). steps.
  rewrite (bind_eq _ _ _ _ _ (plus_text _ _ _ _ Htf)).
  rewrite <- (app_nil_r h) at 1. do 5 alloc_step.
  erewrite bind_eq; [|stringify_fresh 5].
  unfold pure. rewrite !append_assoc. reflexivity.
Qed.

(** When the condition of the medication handlers does not hold, they only
    set the status. *)

Lemma Index_order_select_unmet h req res draftOrder selections :
  reads h (body req) draft_order_path draftOrder ->
  reads h (body req) [Field "context"; Field "selections"] selections ->
  Index.medication_chosen draftOrder selections h = Ok (false, h) ->
  Index.order_select_example req res h = Ok (Response.status 200 res, h).
Proof.
  unfold reads, draft_order_path. intros Hd Hs Hc.
  path_inv Hd. path_inv Hs. unify_reads.
  unfold Index.order_select_example. steps. reflexivity.
Qed.

Lemma Part000_medication_prescribe_unmet h req res context concept :
  reads h (body req) context_path context ->
  reads h context [Field "medicationCodeableConcept"] concept ->
  truthy concept = false ->
  Part000.medication_prescribe_example req res h = Ok (Response.status 200 res, h).
Proof.
  unfold reads, context_path. intros Hx Hc Hf.
  path_inv Hx. path_inv Hc.
  unfold Part000.medication_prescribe_example. steps. rewrite Hf. reflexivity.
Qed.

Lemma status_200_left_open h res :
  finished res = false -> res_body res = None ->
  never_answered (settle h (Response.status 200 res)).
Proof.
  intros Hf Hb. unfold settle, Response.status. rewrite Hf. cbn.
  eexists _, _. split; [reflexivity|]. by cbn.
Qed.

(** ** The card generator *)

(** The first line of [createMedicationResponseCard] reads the path
    [code_path]; the two files have the same line. *)
Lemma providerOrderedMedication_reads h context code :
  reads h context code_path code ->
  Index.providerOrderedMedication context h = Ok (code, h) /\
  Part000.providerOrderedMedication context h = Ok (code, h).
Proof.
  unfold reads, code_path. intros H. path_inv H.
  unfold Index.providerOrderedMedication, Part000.providerOrderedMedication.
  steps. done.
Qed.

(** An order whose code can be read is an object of the heap. *)
Lemma reads_code_object h context code :
  reads h context code_path code ->
  exists l props, context = VRef l /\ h !! l = Some (Obj props).
Proof.
  unfold reads, code_path. intros H.
  apply get_path_field in H as (concept & Hconcept & H).
  apply get_path_field in H as (coding & Hcoding & H).
  destruct (get_prop_defined _ _ _ _ _ Hconcept (get_prop_not_nullish _ _ _ _ Hcoding))
    as (l & props & -> & Hl & _).
  eauto.
Qed.

Lemma Index_info_card h context :
  reads h context code_path (VStr "243670") ->
  exists response h',
    Index.createMedicationResponseCard context h = Ok (response, h') /\
    JSON_stringify response h' = Ok (Some info_card_index, h').
Proof.
  intros [Hcode _]%providerOrderedMedication_reads.
  eexists _, _. split.
  - unfold Index.createMedicationResponseCard. steps. cbn [strict_eq].
    unfold strict_eq. rewrite bool_decide_eq_true_2 by done.
    rewrite <- (app_nil_r h) at 1. do 3 alloc_step.
    unfold new_object. rewrite alloc_frame. cbn [length app]. reflexivity.
  - stringify_fresh 4.
Qed.

Lemma Part000_info_card h context :
  reads h context code_path (VStr "243670") ->
  exists response h',
    Part000.createMedicationResponseCard context h = Ok (response, h') /\
    JSON_stringify response h' = Ok (Some info_card_part000, h').
Proof.
  intros [_ Hcode]%providerOrderedMedication_reads.
  eexists _, _. split.
  - unfold Part000.createMedicationResponseCard. steps.
    unfold strict_eq. rewrite bool_decide_eq_true_2 by done.
    rewrite <- (app_nil_r h) at 1. do 2 alloc_step.
    unfold new_object. rewrite alloc_frame. cbn [length app]. reflexivity.
  - stringify_fresh 3.
Qed.

(** Reads in the heap that the suggestion branch leaves: the order at [l]
    updated, and the new cells on top. *)
Ltac read_suggestion Hlt :=
  unfold reads, code_path, get_path, bind, pure, get_prop, get_index, elements;
  repeat first
    [ rewrite (lookup_fresh_at _ _ _ _ (length_insert _ _ _))
    | rewrite (lookup_updated _ _ _ _ Hlt)
    | rewrite lookup_assign_prop
    | progress cbn ];
  reflexivity.

Lemma Index_suggestion_card h context code :
  reads h context code_path code ->
  code <> VStr "243670" ->
  exists response h',
    Index.createMedicationResponseCard context h = Ok (response, h') /\
    warning_with_one_create_action h' response /\
    reads h' response suggested_resource_path context /\
    reads h' context code_path (VStr "243670").
Proof.
  intros Hreads Hne.
  destruct (reads_code_object _ _ _ Hreads) as (l & props & -> & Hl).
  apply providerOrderedMedication_reads in Hreads as [Hcode _].
  pose proof (lookup_lt_Some _ _ _ Hl) as Hlt.
  eexists _, _. split.
  { unfold Index.createMedicationResponseCard. steps.
    rewrite strict_eq_ne by done.
    rewrite <- (app_nil_r h) at 1. do 3 alloc_step.
    rewrite (bind_eq _ _ _ _ _ (set_prop_base _ _ _ _ _ _ Hl)).
    do 7 alloc_step. unfold new_object. rewrite alloc_frame. cbn [length app].
    rewrite !length_insert. reflexivity. }
  split_and!; [|read_suggestion Hlt..].
  do 6 eexists. split_and!; read_suggestion Hlt.
Qed.

Lemma Part000_suggestion_card h context code :
  reads h context code_path code ->
  code <> VStr "243670" ->
  exists response h',
    Part000.createMedicationResponseCard context h = Ok (response, h') /\
    warning_with_one_create_action h' response /\
    reads h' response suggested_resource_path context /\
    reads h' context code_path (VStr "243670").
Proof.
  intros Hreads Hne.
  destruct (reads_code_object _ _ _ Hreads) as (l & props & -> & Hl).
  apply providerOrderedMedication_reads in Hreads as [_ Hcode].
  pose proof (lookup_lt_Some _ _ _ Hl) as Hlt.
  eexists _, _. split.
  { unfold Part000.createMedicationResponseCard. steps.
    rewrite strict_eq_ne by done.
    rewrite <- (app_nil_r h) at 1. do 3 alloc_step.
    rewrite (bind_eq _ _ _ _ _ (set_prop_base _ _ _ _ _ _ Hl)).
    do 7 alloc_step. unfold new_object. rewrite alloc_frame. cbn [length app].
    rewrite !length_insert. reflexivity. }
  split_and!; [|read_suggestion Hlt..].
  do 6 eexists. split_and!; read_suggestion Hlt.
Qed.

(** ** The applications *)

Lemma Index_authorization_passes req res :
  startsWith (Index.authorizationHeader req) "Bearer" = true ->
  Index.authorization req res = Next res.
Proof.
  intros Hb. unfold Index.authorization.
  rewrite Hb, (startsWith_Bearer_truthy _ Hb). by destruct (String.eqb _ _).
Qed.

Lemma find_route_here m p f routes req :
  method req = m -> path req = p -> find_route ((m, p, f) :: routes) req = Some f.
Proof. intros Hm Hp. cbn. by rewrite Hm, Hp, !String.eqb_refl. Qed.

Lemma Index_get_catalog h req :
  method req = "GET" -> path req = "/cds-services" ->
  startsWith (Index.authorizationHeader req) "Bearer" = true ->
  answered_with catalog_index (Index.app h req).
Proof.
  intros Hm Hp Hb. rewrite Index_app_passed by by apply Index_authorization_passes.
  unfold router, handle, Index.routes. rewrite (find_route_here _ _ _ _ _ Hm Hp).
  destruct (Index_discovery_sends req (cors_headers Response.fresh) h) as [h' ->].
  by exists h', (Response.send (Some catalog_index) (cors_headers Response.fresh)).
Qed.

Lemma Part000_app_routed h req :
  Part000.app h req = router Part000.routes h req (cors_headers Response.fresh).
Proof. reflexivity. Qed.

Lemma Part000_get_catalog h req :
  method req = "GET" -> path req = "/cds-services" ->
  answered_with catalog_part000 (Part000.app h req).
Proof.
  intros Hm Hp. rewrite Part000_app_routed.
  unfold router, handle, Part000.routes. rewrite (find_route_here _ _ _ _ _ Hm Hp).
  destruct (Part000_discovery_sends req (cors_headers Response.fresh) h) as [h' ->].
  by exists h', (Response.send (Some catalog_part000) (cors_headers Response.fresh)).
Qed.

(** Membership in the members of a document that is written out. *)
Ltac one_card :=
  eexists; split; [reflexivity|]; split_and!;
  [ repeat first [ apply list_elem_of_here | apply list_elem_of_further ] ..
  | intros j Hin;
    repeat (apply elem_of_cons in Hin as [[=]|Hin]);
    by apply elem_of_nil in Hin ].

(** * The claims *)

(** C1.  For every draft order whose [medicationCodeableConcept.coding[0].code]
    can be read and is not ['243670'], the card generator of either file
    returns a card response with exactly one card, of indicator [warning],
    with exactly one suggestion, with exactly one action, of type [create],
    whose resource has [medicationCodeableConcept.coding[0].code] equal to
    ['243670']. *)
Theorem non_matching_code_gets_suggestion h context code :
  reads h context code_path code ->
  code <> VStr "243670" ->
  returns_suggestion Index.createMedicationResponseCard h context /\
  returns_suggestion Part000.createMedicationResponseCard h context.
Proof.
  intros Hreads Hne. split.
  - destruct (Index_suggestion_card _ _ _ Hreads Hne) as (response & h' & ? & ? & _).
    by exists response, h'.
  - destruct (Part000_suggestion_card _ _ _ Hreads Hne) as (response & h' & ? & ? & _).
    by exists response, h'.
Qed.

Lemma non_matching_code_gets_suggestion_witness :
  reads (parsed ibuprofen_order).2 (parsed ibuprofen_order).1 code_path (VStr "999999") /\
  VStr "999999" <> VStr "243670" /\
  returns_suggestion Index.createMedicationResponseCard
    (parsed ibuprofen_order).2 (parsed ibuprofen_order).1 /\
  returns_suggestion Part000.createMedicationResponseCard
    (parsed ibuprofen_order).2 (parsed ibuprofen_order).1.
Proof.
  split; [reflexivity|]. split; [discriminate|].
  apply (non_matching_code_gets_suggestion _ _ (VStr "999999")); [reflexivity | discriminate].
Defined.

(** C2.  For every draft order whose [medicationCodeableConcept.coding[0].code]
    is ['243670'], the card generator of either file returns a card response
    with exactly one card, of indicator [info] and summary ['Currently
    prescribing a low-dose Aspirin'], without suggestions. *)
Theorem matching_code_gets_info_card h context :
  reads h context code_path (VStr "243670") ->
  returns_card Index.createMedicationResponseCard info_card_index h context /\
  returns_card Part000.createMedicationResponseCard info_card_part000 h context /\
  one_card_without_suggestions "info" "Currently prescribing a low-dose Aspirin"
    info_card_index /\
  one_card_without_suggestions "info" "Currently prescribing a low-dose Aspirin"
    info_card_part000.
Proof.
  intros Hreads. split_and!.
  - by apply Index_info_card.
  - by apply Part000_info_card.
  - one_card.
  - one_card.
Qed.

Lemma matching_code_gets_info_card_witness :
  reads (parsed aspirin_order).2 (parsed aspirin_order).1 code_path (VStr "243670") /\
  returns_card Index.createMedicationResponseCard info_card_index
    (parsed aspirin_order).2 (parsed aspirin_order).1 /\
  returns_card Part000.createMedicationResponseCard info_card_part000
    (parsed aspirin_order).2 (parsed aspirin_order).1.
Proof.
  split; [reflexivity|].
  destruct (matching_code_gets_info_card (parsed aspirin_order).2 (parsed aspirin_order).1)
    as (H1 & H2 & _); [reflexivity|].
  exact (conj H1 H2).
Defined.

(** C3 fails on the code.  The generator is given the draft order whose
    code is ['999999'].  After the call the code read from that same draft
    order is ['243670'], and the resource of the suggested action is the
    draft order itself, not a copy: [newMedicationRequest = context] copies
    the reference and the assignment overwrites the
    [medicationCodeableConcept] of the caller's object.  This is so in both
    files. *)
Theorem draft_order_is_overwritten :
  let test (create : value -> js value) :=
    run (let! draftOrder := parse ibuprofen_order in
         let! before := get_path draftOrder code_path in
         let! response := create draftOrder in
         let! after := get_path draftOrder code_path in
         let! resource := get_path response suggested_resource_path in
         pure (before, after, bool_decide (resource = draftOrder))) in
  test Index.createMedicationResponseCard = Ok (VStr "999999", VStr "243670", true) /\
  test Part000.createMedicationResponseCard = Ok (VStr "999999", VStr "243670", true).
Proof. split; reflexivity. Qed.

(** C4 fails on the code.  When the order has no
    [medicationCodeableConcept], or is not among the selections, or is not a
    medication order, no body is sent and the status is set to 200, but the
    response is never ended: [response.status(200)] sends nothing, unlike
    the [response.status(401).end()] of the authorization middleware.  No
    status goes back to the client. *)
Theorem unmet_contract_is_never_answered :
  never_answered
    (serve Index.app "POST" "/cds-services/order-select-example" []
       (order_select_body [JStr "MedicationRequest/123"] order_without_medication)) /\
  never_answered
    (serve Index.app "POST" "/cds-services/order-select-example" []
       (order_select_body [JStr "MedicationRequest/456"] ibuprofen_order)) /\
  never_answered
    (serve Index.app "POST" "/cds-services/order-select-example" []
       (order_select_body [JStr "Observation/123"] observation)) /\
  never_answered
    (serve Part000.app "POST" "/cds-services/medication-prescribe-example" []
       (medication_prescribe_body order_without_medication)).
Proof. split_and!; eexists _, _; (split; [reflexivity|done]). Qed.

(** C5.  Every OPTIONS request passes the authorization middleware,
    whatever its Authorization header: the middleware calls [next()] and
    leaves the response as it is, so that no 401 is produced, and the
    response carries the five CORS headers. *)
Theorem options_passes_authorization h req :
  method req = "OPTIONS" ->
  (forall res, Index.authorization req res = Next res) /\
  (forall res, run_chain Index.middlewares req res = Next (cors_headers res)) /\
  (forall res, cors_headers_present (cors_headers res)) /\
  Index.app h req = Unrouted (cors_headers Response.fresh) /\
  ~ rejected (Index.app h req).
Proof.
  intros Hm.
  assert (Hpass0 : forall res, Index.authorization req res = Next res).
  { intros res. unfold Index.authorization. by rewrite Hm. }
  split_and!.
  - exact Hpass0.
  - intros res. cbn. by rewrite Hpass0.
  - apply cors_headers_set.
  - rewrite Index_app_passed by apply Hpass0.
    unfold router, Index.routes, find_route. by rewrite Hm.
  - by apply Index_app_passed_not_rejected.
Qed.

Lemma options_passes_authorization_witness :
  let h := (parsed no_body).2 in
  let req := options_catalog [("host", "cds.example.org"); ("authorization", "Basic dXNlcjpwYXNz")] in
  method req = "OPTIONS" /\
  Index.authorization req Response.fresh = Next Response.fresh /\
  Index.app h req = Unrouted (cors_headers Response.fresh) /\
  cors_headers_present (cors_headers Response.fresh) /\
  ~ rejected (Index.app h req).
Proof.
  intros h req. split; [reflexivity|].
  destruct (options_passes_authorization h req) as (H1 & _ & H3 & H4 & H5); [reflexivity|].
  split; [apply H1|]. split; [exact H4|]. split; [apply H3 | exact H5].
Defined.

(** C6.  For a request that is not OPTIONS and has no Authorization header
    the authorization middleware takes the placeholder ["Bearer open"],
    whose token is ["open"], and lets the request through: it is not turned
    down. *)
Theorem missing_header_gets_default_credential h req :
  method req <> "OPTIONS" ->
  Request.get req "Authorization" = None ->
  Index.authorizationHeader req = "Bearer open" /\
  Index.token req = "open" /\
  (forall res, Index.authorization req res = Next res) /\
  ~ rejected (Index.app h req).
Proof.
  intros Hm Hauth.
  assert (Hh : Index.authorizationHeader req = "Bearer open").
  { unfold Index.authorizationHeader. by rewrite Hauth. }
  assert (Hpass0 : forall res, Index.authorization req res = Next res).
  { intros res. unfold Index.authorization. rewrite Hh.
    by apply String.eqb_neq in Hm as ->. }
  split_and!; [done | | done | by apply Index_app_passed_not_rejected].
  unfold Index.token. by rewrite Hh.
Qed.

Lemma missing_header_gets_default_credential_witness :
  let h := (parsed no_body).2 in
  let req := get_catalog [("host", "cds.example.org")] in
  method req <> "OPTIONS" /\
  Request.get req "Authorization" = None /\
  Index.authorizationHeader req = "Bearer open" /\
  Index.authorization req Response.fresh = Next Response.fresh /\
  ~ rejected (Index.app h req).
Proof.
  intros h req. split; [discriminate|]. split; [reflexivity|].
  destruct (missing_header_gets_default_credential h req) as (H1 & _ & H3 & H4);
    [discriminate | reflexivity |].
  split; [exact H1|]. split; [apply H3 | exact H4].
Defined.

(** C7, amended.  For a request that is not OPTIONS and whose Authorization
    header has a value that is not empty and does not start with [Bearer],
    the authorization middleware ends the response with status 401 and no
    body, with a [WWW-Authenticate] header that names the host of the
    request as realm and the error [invalid_token]; the chain stops there
    and no handler runs (the heap is as it was). *)
Theorem non_bearer_header_is_rejected h req v :
  method req <> "OPTIONS" ->
  Request.get req "Authorization" = Some v ->
  v <> EmptyString ->
  startsWith v "Bearer" = false ->
  exists res text,
    run_chain Index.middlewares req Response.fresh = Done res /\
    Index.app h req = Replied h res /\
    statusCode res = 401%Z /\
    res_body res = None /\
    Response.getHeader "WWW-Authenticate" res = Some text /\
    text = "Bearer realm=" +:+ dquote +:+ template (Request.get req "Host") +:+ dquote
           +:+ ", error=" +:+ dquote +:+ "invalid_token" +:+ dquote
           +:+ ", error_description=" +:+ dquote +:+ "No Bearer token provided." +:+ dquote /\
    (forall host, Request.get req "Host" = Some host -> occurs host text) /\
    occurs "invalid_token" text /\
    cors_headers_present res.
Proof.
  intros Hm Hauth Hv Hprefix.
  assert (Hh : Index.authorizationHeader req = v).
  { unfold Index.authorizationHeader. rewrite Hauth. cbn.
    by apply String.eqb_neq in Hv as ->. }
  assert (Hpass0 : forall res, Index.authorization req res =
            Done (Response.end_ (Response.status 401
              (Response.set "WWW-Authenticate" (Index.challenge req "No Bearer token provided.") res)))).
  { intros res. unfold Index.authorization. rewrite Hh, Hprefix.
    apply String.eqb_neq in Hm as ->. by rewrite orb_true_r. }
  eexists _, _. split; [cbn; by rewrite Hpass0|].
  split; [unfold Index.app, express; cbn; by rewrite Hpass0|].
  split_and!; [done | done | ..].
  - unfold Response.set. rewrite getHeader_end, getHeader_status, getHeader_setHeader. reflexivity.
  - reflexivity.
  - intros host Hhost. unfold Index.challenge, Index.serviceHost. rewrite Hhost. cbn.
    exists ("Bearer realm=" +:+ dquote). eexists. rewrite append_assoc. reflexivity.
  - unfold occurs, Index.challenge, Index.serviceHost. eexists ("Bearer realm=" +:+ dquote +:+ template (Request.get req "Host") +:+ dquote
           +:+ ", error=" +:+ dquote), _.
    rewrite !append_assoc. reflexivity.
  - apply cors_headers_kept, cors_headers_set.
Qed.

Lemma non_bearer_header_is_rejected_witness :
  let h := (parsed no_body).2 in
  let req := get_catalog [("host", "cds.example.org"); ("authorization", "Basic dXNlcjpwYXNz")] in
  method req <> "OPTIONS" /\
  Request.get req "Authorization" = Some "Basic dXNlcjpwYXNz" /\
  "Basic dXNlcjpwYXNz" <> EmptyString /\
  startsWith "Basic dXNlcjpwYXNz" "Bearer" = false /\
  exists res,
    Index.app h req = Replied h res /\ statusCode res = 401%Z /\ res_body res = None.
Proof.
  intros h req. split; [discriminate|]. split; [reflexivity|].
  split; [discriminate|]. split; [reflexivity|].
  destruct (non_bearer_header_is_rejected h req "Basic dXNlcjpwYXNz")
    as (res & text & _ & H2 & H3 & H4 & _); [discriminate | reflexivity | discriminate | reflexivity |].
  exists res. exact (conj H2 (conj H3 H4)).
Defined.

(** C7 as stated fails: an Authorization header that is there with an empty
    value does not start with [Bearer], and the request is not turned down;
    the middleware takes the default credential as if the header were
    missing and the catalog is sent. *)
Lemma empty_authorization_header_passes :
  let h := (parsed no_body).2 in
  let req := get_catalog [("host", "cds.example.org"); ("authorization", EmptyString)] in
  method req <> "OPTIONS" /\
  Request.get req "Authorization" = Some EmptyString /\
  startsWith EmptyString "Bearer" = false /\
  Index.authorization req (cors_headers Response.fresh) = Next (cors_headers Response.fresh) /\
  answered_with catalog_index (Index.app h req) /\
  ~ rejected (Index.app h req).
Proof.
  intros h req.
  assert (Hpass : Index.authorization req (cors_headers Response.fresh)
                  = Next (cors_headers Response.fresh)) by reflexivity.
  split_and!; [discriminate | reflexivity | reflexivity | exact Hpass | |].
  - by apply Index_get_catalog.
  - by apply Index_app_passed_not_rejected.
Qed.

(** C8, amended.  For every patient-view request in which
    [prefetch.requestedPatient.resource.name[0].given[0]] and
    [...family[0]] can be read and have the texts [g] and [f] (a string is
    its own text; the conversion of an object that carries a [toString]
    property throws), the handler of either file sends exactly one card, of
    indicator [info], whose summary is ['Now seeing: '] followed by [g], a
    space and [f], with the link to the documentation and no suggestions. *)
Theorem patient_view_card h req res given0 family0 g f :
  reads h (body req) given_path given0 ->
  reads h (body req) family_path family0 ->
  to_string given0 h = Ok (g, h) ->
  to_string family0 h = Ok (f, h) ->
  let summary := "Now seeing: " +:+ g +:+ " " +:+ f in
  sends Index.patient_view_example (patient_card_index summary) h req res /\
  sends Part000.patient_view_example (patient_card_part000 summary) h req res /\
  one_card_without_suggestions "info" summary (patient_card_index summary) /\
  one_card_without_suggestions "info" summary (patient_card_part000 summary).
Proof.
  intros Hg Hf Htg Htf summary. split_and!.
  - by eapply Index_patient_view_sends.
  - by eapply Part000_patient_view_sends.
  - one_card.
  - one_card.
Qed.

Lemma patient_view_card_witness :
  let h := (parsed ana_lee).2 in
  let req := mk_request "POST" "/cds-services/patient-view-example" [] (parsed ana_lee).1 in
  reads h (body req) given_path (VStr "Ana") /\
  reads h (body req) family_path (VStr "Lee") /\
  sends Index.patient_view_example (patient_card_index "Now seeing: Ana Lee")
    h req Response.fresh /\
  sends Part000.patient_view_example (patient_card_part000 "Now seeing: Ana Lee")
    h req Response.fresh.
Proof.
  intros h req. split; [reflexivity|]. split; [reflexivity|].
  destruct (patient_view_card h req Response.fresh (VStr "Ana") (VStr "Lee") "Ana" "Lee")
    as (H1 & H2 & _); [reflexivity..|].
  exact (conj H1 H2).
Defined.

(** C8 as stated fails.  In this request [name[0]] has a [given] and a
    [family] that are not empty, as the contract asks, and [given[0]] is an
    object with a property [toString]: ['Now seeing: ' + given[0]] finds
    nothing to call, and the handler of either file throws a TypeError and
    sends no card. *)
Lemma unprintable_given_name_throws :
  let doc := patient_view_body [JObj [("toString", JStr "x")]] [JStr "Lee"] in
  let h := (parsed doc).2 in
  let req := mk_request "POST" "/cds-services/patient-view-example" [] (parsed doc).1 in
  (exists given family g f,
     reads h (body req)
       [Field "prefetch"; Field "requestedPatient"; Field "resource";
        Field "name"; Item 0; Field "given"] given /\
     elements h given = Some [g] /\
     reads h (body req)
       [Field "prefetch"; Field "requestedPatient"; Field "resource";
        Field "name"; Item 0; Field "family"] family /\
     elements h family = Some [f]) /\
  Index.patient_view_example req Response.fresh h = Throw TypeError /\
  Part000.patient_view_example req Response.fresh h = Throw TypeError /\
  serve Index.app "POST" "/cds-services/patient-view-example" [] doc = Crashed TypeError /\
  serve Part000.app "POST" "/cds-services/patient-view-example" [] doc = Crashed TypeError.
Proof.
  intros doc h req. split; [|by split_and!].
  by exists (VRef 1), (VRef 2), (VRef 0), (VStr "Lee").
Qed.

(** C9, amended.  For every GET to the discovery path whose Authorization
    header, or the default credential in its place, starts with [Bearer]
    (in [part_000], which has no authorization middleware, every GET to that
    path) the response has status 200 and its body is the catalog, the same
    at every call: the patient-view service with the prefetch template of
    the patient in context, then the medication service without prefetch.
    The discovery handler itself sends the catalog whatever the request. *)
Theorem discovery_catalog h req :
  method req = "GET" ->
  path req = "/cds-services" ->
  (startsWith (Index.authorizationHeader req) "Bearer" = true ->
   answered_with catalog_index (Index.app h req)) /\
  answered_with catalog_part000 (Part000.app h req) /\
  (forall res, sends Index.discovery catalog_index h req res) /\
  (forall res, sends Part000.discovery catalog_part000 h req res).
Proof.
  intros Hm Hp. split_and!.
  - by apply Index_get_catalog.
  - by apply Part000_get_catalog.
  - intros res. apply Index_discovery_sends.
  - intros res. apply Part000_discovery_sends.
Qed.

Lemma discovery_catalog_witness :
  let h := (parsed no_body).2 in
  let req := get_catalog [("host", "cds.example.org")] in
  method req = "GET" /\
  path req = "/cds-services" /\
  startsWith (Index.authorizationHeader req) "Bearer" = true /\
  answered_with catalog_index (Index.app h req) /\
  answered_with catalog_part000 (Part000.app h req).
Proof.
  intros h req. split; [reflexivity|]. split; [reflexivity|]. split; [reflexivity|].
  destruct (discovery_catalog h req) as (H1 & H2 & _); [reflexivity..|].
  exact (conj (H1 eq_refl) H2).
Defined.

(** C9 as stated fails in [src/index.js]: a GET to the discovery path with
    a Basic credential is turned down with 401 and gets no catalog. *)
Lemma discovery_needs_authorization :
  let h := (parsed no_body).2 in
  let req := get_catalog [("host", "cds.example.org"); ("authorization", "Basic dXNlcjpwYXNz")] in
  method req = "GET" /\
  path req = "/cds-services" /\
  rejected (Index.app h req) /\
  ~ answered_with catalog_index (Index.app h req).
Proof.
  intros h req. split; [reflexivity|]. split; [reflexivity|].
  assert (Hout : exists res, Index.app h req = Replied h res /\ statusCode res = 401%Z).
  { eexists. split; [reflexivity|reflexivity]. }
  destruct Hout as (res & Hout & H401). split.
  - by exists h, res.
  - intros (h' & res' & Heq & H200 & _). rewrite Hout in Heq.
    injection Heq as _ <-. congruence.
Qed.

(** C10.  In [src/unnamed/part_000] no middleware stops a request: whatever
    the method and the headers, the chain calls [next()], the request goes
    to the router, which runs the discovery or hook handler registered for
    its method and path, and no 401 is produced. *)
Theorem part000_has_no_authorization h req :
  (forall res, run_chain Part000.middlewares req res = Next (cors_headers res)) /\
  Part000.app h req = router Part000.routes h req (cors_headers Response.fresh) /\
  (forall m p f, (m, p, f) ∈ Part000.routes -> method req = m -> path req = p ->
     Part000.app h req = handle f h req (cors_headers Response.fresh)) /\
  ~ rejected (Part000.app h req).
Proof.
  split_and!; [done | done | |].
  - intros m p f Hin Hm Hp. rewrite Part000_app_routed.
    unfold Part000.routes in Hin. rewrite !elem_of_cons, elem_of_nil in Hin.
    destruct Hin as [[= -> -> ->]|[[= -> -> ->]|[[= -> -> ->]|[]]]];
      unfold router, Part000.routes; cbn [find_route]; by rewrite Hm, Hp.
  - rewrite Part000_app_routed.
    apply router_not_rejected; [apply Part000_routes_well_behaved | done].
Qed.

Lemma part000_has_no_authorization_witness :
  let h := (parsed no_body).2 in
  let req := get_catalog [("host", "cds.example.org"); ("authorization", "Basic dXNlcjpwYXNz")] in
  run_chain Part000.middlewares req Response.fresh = Next (cors_headers Response.fresh) /\
  ~ rejected (Part000.app h req) /\
  answered_with catalog_part000 (Part000.app h req).
Proof.
  intros h req. destruct (part000_has_no_authorization h req) as (H1 & _ & _ & H3).
  split; [apply H1|]. split; [exact H3|].
  eexists _, _. split; [reflexivity|done].
Defined.

(** * End to end *)

(** The body parser, the middleware chain, the route and the handler, on
    sample requests. *)

Example order_select_ibuprofen :
  answered_with (suggestion_card_index aspirin_order)
    (serve Index.app "POST" "/cds-services/order-select-example" []
       (order_select_body [JStr "MedicationRequest/123"] ibuprofen_order)).
Proof. eexists _, _. split; [reflexivity|done]. Qed.

Example order_select_aspirin :
  answered_with info_card_index
    (serve Index.app "POST" "/cds-services/order-select-example" []
       (order_select_body [JStr "MedicationRequest/123"] aspirin_order)).
Proof. eexists _, _. split; [reflexivity|done]. Qed.

Example medication_prescribe_ibuprofen :
  answered_with (suggestion_card_part000 aspirin_order)
    (serve Part000.app "POST" "/cds-services/medication-prescribe-example" []
       (medication_prescribe_body ibuprofen_order)).
Proof. eexists _, _. split; [reflexivity|done]. Qed.

Example patient_view_ana_lee :
  answered_with (patient_card_index "Now seeing: Ana Lee")
    (serve Index.app "POST" "/cds-services/patient-view-example"
       [("authorization", "Bearer abc")] ana_lee).
Proof. eexists _, _. split; [reflexivity|done]. Qed.

(** A request whose body has no prefetch makes the patient-view handler
    throw. *)
Example patient_view_without_prefetch :
  serve Index.app "POST" "/cds-services/patient-view-example" [] no_body
  = Crashed TypeError.
Proof. reflexivity. Qed.

(** A name that is a number is printed as JavaScript prints the number. *)
Example patient_view_number_name :
  answered_with (patient_card_index "Now seeing: 1e+21 Lee")
    (serve Index.app "POST" "/cds-services/patient-view-example" []
       (patient_view_body [JNum "1e+21"] [JStr "Lee"])).
Proof. eexists _, _. split; [reflexivity|done]. Qed.

(** An order whose [id] is a number is selected under the text of that
    number. *)
Example order_select_number_id :
  let draft := JObj [("resourceType", JStr "MedicationRequest"); ("id", JNum "1e+21");
                     ("medicationCodeableConcept",
                      concept "Aspirin 81 MG Oral Tablet" "243670")] in
  answered_with info_card_index
    (serve Index.app "POST" "/cds-services/order-select-example" []
       (order_select_body [JStr "MedicationRequest/1e+21"] draft)) /\
  never_answered
    (serve Index.app "POST" "/cds-services/order-select-example" []
       (order_select_body [JStr "MedicationRequest/1000000000000000000000"] draft)).
Proof. split; eexists _, _; (split; [reflexivity|done]). Qed.

(** The suggested resource lists the keys that are array indices first, in
    ascending order, as [JSON.stringify] does. *)
Example medication_prescribe_index_keys :
  answered_with
    (suggestion_card_part000
       (JObj [("2", JStr "b"); ("10", JStr "a");
              ("resourceType", JStr "MedicationRequest");
              ("medicationCodeableConcept",
               concept "Aspirin 81 MG Oral Tablet" "243670")]))
    (serve Part000.app "POST" "/cds-services/medication-prescribe-example" []
       (medication_prescribe_body
          (JObj [("resourceType", JStr "MedicationRequest"); ("10", JStr "a");
                 ("medicationCodeableConcept",
                  concept "Ibuprofen 200 MG Oral Tablet" "999999");
                 ("2", JStr "b")]))).
Proof. eexists _, _. split; [reflexivity|done]. Qed.

(** A body that is a string is turned down by the body parser: no
    middleware of the program runs. *)
Example string_body_is_refused :
  serve Index.app "GET" "/cds-services" [("authorization", "Basic abc")] (JStr "x") = Refused /\
  serve Part000.app "GET" "/cds-services" [] (JStr "x") = Refused.
Proof. split; reflexivity. Qed.

(** * Further properties *)

(** ** The heap of a parsed body *)

Lemma below_le n m v : below n v = true -> n <= m -> below m v = true.
Proof.
  destruct v; cbn; try done. intros H%Nat.ltb_lt Hle. apply Nat.ltb_lt. lia.
Qed.





Lemma forallb_below_le_list n m (vs : list value) :
  n <= m -> forallb (below n) vs = true -> forallb (below m) vs = true.
Proof.
  intros Hle. rewrite !forallb_forall. intros H kv Hin. eapply below_le; eauto.
Qed.


(** ** The authorization middleware *)







Lemma prefix_Bearer_space t : String.prefix "Bearer " ("Bearer " +:+ t) = true.
Proof. cbn. by destruct t. Qed.

Lemma replace_Bearer t : replace ("Bearer " +:+ t) "Bearer " EmptyString = t.
Proof.
  change ("Bearer " +:+ t) with
    (String "B" (String "e" (String "a" (String "r" (String "e" (String "r" (String " " t))))))).
  unfold replace. cbn. by destruct t.
Qed.

(** A request with the header ['Bearer ' + t] is let through by the
    authorization middleware, whatever its method, and the token the
    middleware takes from the header is [t]. *)
Theorem bearer_token_passes h req t :
  Request.get req "Authorization" = Some ("Bearer " +:+ t) ->
  Index.token req = t /\
  (forall res, Index.authorization req res = Next res) /\
  ~ rejected (Index.app h req).
Proof.
  intros Hv.
  assert (Hh : Index.authorizationHeader req = "Bearer " +:+ t).
  { unfold Index.authorizationHeader. by rewrite Hv. }
  assert (Hpass : forall res, Index.authorization req res = Next res).
  { intros res. apply Index_authorization_passes. rewrite Hh.
    unfold startsWith. cbn. by destruct t. }
  split_and!.
  - unfold Index.token. rewrite Hh. apply replace_Bearer.
  - done.
  - by apply Index_app_passed_not_rejected.
Qed.

Lemma bearer_token_passes_witness :
  let req := mk_request "POST" "/cds-services" [("authorization", "Bearer abc")]
               (parsed no_body).1 in
  Request.get req "Authorization" = Some "Bearer abc" /\
  Index.token req = "abc" /\
  ~ rejected (Index.app (parsed no_body).2 req).
Proof.
  intros req. split; [reflexivity|].
  destruct (bearer_token_passes (parsed no_body).2 req "abc") as (H1 & _ & H3);
    [reflexivity|].
  exact (conj H1 H3).
Defined.

(** ** The headers of the responses *)










(** ** The card generator and the heap *)

Lemma providerOrderedMedication_inv context h code h' :
  Index.providerOrderedMedication context h = Ok (code, h') ->
  reads h context code_path code /\ h' = h.
Proof.
  unfold Index.providerOrderedMedication. intros H.
  apply bind_ok in H as (concept & h1 & Hconcept & H).
  pose proof (get_prop_heap _ _ _ _ _ Hconcept) as ->.
  apply bind_ok in H as (coding & h1 & Hcoding & H).
  pose proof (get_prop_heap _ _ _ _ _ Hcoding) as ->.
  apply bind_ok in H as (coding0 & h1 & Hcoding0 & H).
  pose proof (get_index_heap _ _ _ _ _ Hcoding0) as ->.
  pose proof (get_prop_heap _ _ _ _ _ H) as ->. split; [|done].
  unfold reads, code_path, get_path.
  rewrite (bind_eq _ _ _ _ _ Hconcept), (bind_eq _ _ _ _ _ Hcoding),
    (bind_eq _ _ _ _ _ Hcoding0), (bind_eq _ _ _ _ _ H). reflexivity.
Qed.

Lemma assign_prop_keys k v w props :
  lookup_prop k props = Some w -> (assign_prop k v props).*1 = props.*1.
Proof.
  induction props as [|[k' v'] props IH]; cbn; [done|].
  destruct (String.eqb k k') eqn:Hk; cbn.
  - apply String.eqb_eq in Hk as ->. done.
  - intros H. by rewrite IH.
Qed.

(** An order whose code can be read has a [medicationCodeableConcept]. *)
Lemma reads_code_concept h context code :
  reads h context code_path code ->
  exists l props concept, context = VRef l /\ h !! l = Some (Obj props) /\
    lookup_prop "medicationCodeableConcept" props = Some concept.
Proof.
  unfold reads, code_path. intros H.
  apply get_path_field in H as (concept & Hconcept & H).
  apply get_path_field in H as (coding & Hcoding & H).
  destruct (get_prop_defined _ _ _ _ _ Hconcept (get_prop_not_nullish _ _ _ _ Hcoding))
    as (l & props & -> & Hl & Hk).
  eauto 10.
Qed.

(** The heap after the call, in both branches and both files: the order at
    [l] with its properties [props'], and new cells. *)
Lemma Index_create_heap h l props code :
  h !! l = Some (Obj props) ->
  reads h (VRef l) code_path code ->
  exists response t props',
    Index.createMedicationResponseCard (VRef l) h
      = Ok (response, <[l := Obj props']> h ++ t) /\
    (props' = props \/ exists w, props' = assign_prop "medicationCodeableConcept" w props).
Proof.
  intros Hl Hreads. apply providerOrderedMedication_reads in Hreads as [Hcode _].
  unfold Index.createMedicationResponseCard. steps.
  destruct (decide (code = VStr "243670")) as [->|Hne].
  - eexists _, _, props. split; [|by left]. cbn [strict_eq].
    rewrite bool_decide_eq_true_2 by done.
    rewrite (list_insert_id _ _ _ Hl).
    rewrite <- (app_nil_r h) at 1. do 3 alloc_step.
    unfold new_object. rewrite alloc_frame. reflexivity.
  - eexists _, _, _. split; [|right; eexists; reflexivity].
    rewrite strict_eq_ne by done.
    rewrite <- (app_nil_r h) at 1. do 3 alloc_step.
    rewrite (bind_eq _ _ _ _ _ (set_prop_base _ _ _ _ _ _ Hl)).
    do 7 alloc_step. unfold new_object. rewrite alloc_frame. reflexivity.
Qed.

Lemma Part000_create_heap h l props code :
  h !! l = Some (Obj props) ->
  reads h (VRef l) code_path code ->
  exists response t props',
    Part000.createMedicationResponseCard (VRef l) h
      = Ok (response, <[l := Obj props']> h ++ t) /\
    (props' = props \/ exists w, props' = assign_prop "medicationCodeableConcept" w props).
Proof.
  intros Hl Hreads. apply providerOrderedMedication_reads in Hreads as [_ Hcode].
  unfold Part000.createMedicationResponseCard. steps.
  destruct (decide (code = VStr "243670")) as [->|Hne].
  - eexists _, _, props. split; [|by left]. cbn [strict_eq].
    rewrite bool_decide_eq_true_2 by done.
    rewrite (list_insert_id _ _ _ Hl).
    rewrite <- (app_nil_r h) at 1. do 2 alloc_step.
    unfold new_object. rewrite alloc_frame. reflexivity.
  - eexists _, _, _. split; [|right; eexists; reflexivity].
    rewrite strict_eq_ne by done.
    rewrite <- (app_nil_r h) at 1. do 3 alloc_step.
    rewrite (bind_eq _ _ _ _ _ (set_prop_base _ _ _ _ _ _ Hl)).
    do 7 alloc_step. unfold new_object. rewrite alloc_frame. reflexivity.
Qed.

Lemma updated_order_frame (h t : heap) l props props' concept :
  h !! l = Some (Obj props) ->
  lookup_prop "medicationCodeableConcept" props = Some concept ->
  (props' = props \/ exists w, props' = assign_prop "medicationCodeableConcept" w props) ->
  let h' := <[l := Obj props']> h ++ t in
  h' !! l = Some (Obj props') /\
  props'.*1 = props.*1 /\
  (forall k, k <> "medicationCodeableConcept" -> lookup_prop k props' = lookup_prop k props) /\
  (forall l', l' <> l -> l' < length h -> h' !! l' = h !! l').
Proof.
  intros Hl Hk Hp h'. pose proof (lookup_lt_Some _ _ _ Hl) as Hlt. split_and!.
  - by apply lookup_updated.
  - destruct Hp as [->|[w ->]]; [done|]. by eapply assign_prop_keys.
  - intros k Hne. destruct Hp as [->|[w ->]]; [done|].
    apply lookup_assign_prop_ne. congruence.
  - intros l' Hne Hlt'. unfold h'.
    rewrite lookup_app_l by (rewrite length_insert; lia).
    by apply list_lookup_insert_ne.
Qed.

(** A call of the card generator that returns has changed nothing in the
    heap it was given but the [medicationCodeableConcept] of the order, in
    both files and on both branches. *)
Theorem generator_keeps_all_but_concept context h response h' :
  Index.createMedicationResponseCard context h = Ok (response, h') \/
  Part000.createMedicationResponseCard context h = Ok (response, h') ->
  keeps_all_but_concept h h' context.
Proof.
  intros [H|H].
  - pose proof H as H0. apply bind_ok in H0 as (code & h1 & Hcode & _).
    apply providerOrderedMedication_inv in Hcode as [Hreads ->].
    destruct (reads_code_concept _ _ _ Hreads) as (l & props & concept & -> & Hl & Hk).
    destruct (Index_create_heap _ _ _ _ Hl Hreads) as (r & t & props' & Heq & Hp).
    rewrite Heq in H. injection H as _ <-.
    exists l, props, props'. split; [done|]. split; [done|].
    by apply (updated_order_frame h t l props props' concept).
  - pose proof H as H0. apply bind_ok in H0 as (code & h1 & Hcode & _).
    apply providerOrderedMedication_inv in Hcode as [Hreads ->].
    destruct (reads_code_concept _ _ _ Hreads) as (l & props & concept & -> & Hl & Hk).
    destruct (Part000_create_heap _ _ _ _ Hl Hreads) as (r & t & props' & Heq & Hp).
    rewrite Heq in H. injection H as _ <-.
    exists l, props, props'. split; [done|]. split; [done|].
    by apply (updated_order_frame h t l props props' concept).
Qed.

Lemma generator_keeps_all_but_concept_witness :
  exists response h',
    Index.createMedicationResponseCard (parsed ibuprofen_order).1 (parsed ibuprofen_order).2
      = Ok (response, h') /\
    keeps_all_but_concept (parsed ibuprofen_order).2 h' (parsed ibuprofen_order).1.
Proof.
  destruct (Index.createMedicationResponseCard (parsed ibuprofen_order).1
              (parsed ibuprofen_order).2) as [[response h']|e] eqn:E.
  - exists response, h'. split; [reflexivity|].
    eapply generator_keeps_all_but_concept. left. exact E.
  - exfalso. vm_compute in E. discriminate.
Defined.

(** After a suggestion, the generator called again on the same order
    returns the info card: the first call has written the recommended
    medication into the order. *)
Theorem second_call_gets_info_card h context code :
  reads h context code_path code ->
  code <> VStr "243670" ->
  (exists response h',
     Index.createMedicationResponseCard context h = Ok (response, h') /\
     returns_card Index.createMedicationResponseCard info_card_index h' context) /\
  (exists response h',
     Part000.createMedicationResponseCard context h = Ok (response, h') /\
     returns_card Part000.createMedicationResponseCard info_card_part000 h' context).
Proof.
  intros Hreads Hne. split.
  - destruct (Index_suggestion_card _ _ _ Hreads Hne) as (response & h' & Heq & _ & _ & Hafter).
    exists response, h'. split; [done|]. by apply Index_info_card.
  - destruct (Part000_suggestion_card _ _ _ Hreads Hne) as (response & h' & Heq & _ & _ & Hafter).
    exists response, h'. split; [done|]. by apply Part000_info_card.
Qed.

Lemma second_call_gets_info_card_witness :
  reads (parsed ibuprofen_order).2 (parsed ibuprofen_order).1 code_path (VStr "999999") /\
  exists response h',
    Index.createMedicationResponseCard (parsed ibuprofen_order).1 (parsed ibuprofen_order).2
      = Ok (response, h') /\
    returns_card Index.createMedicationResponseCard info_card_index h'
      (parsed ibuprofen_order).1.
Proof.
  split; [reflexivity|].
  destruct (second_call_gets_info_card (parsed ibuprofen_order).2 (parsed ibuprofen_order).1
              (VStr "999999")) as [H _]; [reflexivity | discriminate |].
  exact H.
Defined.

(** ** Where the generator throws *)

Lemma providerOrderedMedication_throws h context :
  reads h context [Field "medicationCodeableConcept"; Field "coding"] VUndef \/
  reads h context [Field "medicationCodeableConcept"; Field "coding"; Item 0] VUndef ->
  Index.providerOrderedMedication context h = Throw TypeError.
Proof.
  unfold reads. intros [H|H]; path_inv H;
    unfold Index.providerOrderedMedication; steps; reflexivity.
Qed.

Lemma Index_create_throws h context :
  Index.providerOrderedMedication context h = Throw TypeError ->
  Index.createMedicationResponseCard context h = Throw TypeError.
Proof. intros H. unfold Index.createMedicationResponseCard, bind. by rewrite H. Qed.

Lemma Part000_create_throws h context :
  Index.providerOrderedMedication context h = Throw TypeError ->
  Part000.createMedicationResponseCard context h = Throw TypeError.
Proof.
  intros H. unfold Part000.createMedicationResponseCard, bind.
  change (Part000.providerOrderedMedication context h)
    with (Index.providerOrderedMedication context h).
  by rewrite H.
Qed.

(** A [medicationCodeableConcept] without [coding], or whose [coding] has
    no first element, makes the generator throw a TypeError. *)
Theorem generator_throws_without_coding h context :
  reads h context [Field "medicationCodeableConcept"; Field "coding"] VUndef \/
  reads h context [Field "medicationCodeableConcept"; Field "coding"; Item 0] VUndef ->
  Index.createMedicationResponseCard context h = Throw TypeError /\
  Part000.createMedicationResponseCard context h = Throw TypeError.
Proof.
  intros H%providerOrderedMedication_throws.
  split; [by apply Index_create_throws | by apply Part000_create_throws].
Qed.

Lemma generator_throws_without_coding_witness :
  let order := parsed (order [("medicationCodeableConcept", JObj [])]) in
  reads order.2 order.1 [Field "medicationCodeableConcept"; Field "coding"] VUndef /\
  Index.createMedicationResponseCard order.1 order.2 = Throw TypeError /\
  Part000.createMedicationResponseCard order.1 order.2 = Throw TypeError.
Proof.
  intros order. split; [reflexivity|].
  apply generator_throws_without_coding. left. reflexivity.
Defined.

(** ** The handlers and the heap *)

Lemma plus_heap s v h t h' : plus s v h = Ok (t, h') -> h' = h.
Proof.
  unfold plus. intros (u & h1 & Hu & H)%bind_ok.
  apply to_string_heap in Hu as ->. by apply pure_ok in H as [_ ->].
Qed.

Lemma alloc_heap c h v h' : alloc c h = Ok (v, h') -> h' = h ++ [c].
Proof. unfold alloc. by intros [= _ <-]. Qed.

(** Follows the heap through a sequence of reads and allocations. *)
Ltac heap_steps H :=
  repeat (let Hs := fresh "Hs" in
          apply bind_ok in H as (? & ? & Hs & H);
          first [ apply get_prop_heap in Hs as ->
                | apply get_index_heap in Hs as ->
                | apply plus_heap in Hs as ->
                | apply JSON_stringify_heap in Hs as ->
                | apply alloc_heap in Hs as -> ]);
  apply pure_ok in H as [_ ->].

(** The discovery and the patient-view handlers of both files build their
    answer in new cells: no object of the request is written to. *)
Theorem catalog_and_patient_view_only_allocate :
  only_allocates Index.discovery /\
  only_allocates Index.patient_view_example /\
  only_allocates Part000.discovery /\
  only_allocates Part000.patient_view_example.
Proof.
  split_and!; intros req res h res' h' H.
  - unfold Index.discovery in H. heap_steps H.
    rewrite <- !app_assoc. by eexists.
  - unfold Index.patient_view_example in H. heap_steps H.
    rewrite <- !app_assoc. by eexists.
  - unfold Part000.discovery in H. heap_steps H.
    rewrite <- !app_assoc. by eexists.
  - unfold Part000.patient_view_example in H. heap_steps H.
    rewrite <- !app_assoc. by eexists.
Qed.

Lemma catalog_and_patient_view_only_allocate_witness :
  exists res' h',
    Index.patient_view_example
      (mk_request "POST" "/cds-services/patient-view-example" [] (parsed ana_lee).1)
      Response.fresh (parsed ana_lee).2 = Ok (res', h') /\
    exists t, h' = (parsed ana_lee).2 ++ t.
Proof.
  destruct (Index.patient_view_example
              (mk_request "POST" "/cds-services/patient-view-example" [] (parsed ana_lee).1)
              Response.fresh (parsed ana_lee).2) as [[res' h']|e] eqn:E.
  - exists res', h'. split; [reflexivity|].
    destruct catalog_and_patient_view_only_allocate as (_ & H & _).
    exact (H _ _ _ _ _ E).
  - exfalso. vm_compute in E. discriminate.
Defined.

(** ** Paths that break off *)

Lemma reads_app h v p u q : reads h v p u -> get_path v (p ++ q) h = get_path u q h.
Proof.
  unfold reads. revert v. induction p as [|[k|i] p IH]; intros v H.
  - by apply get_path_nil in H as [-> _].
  - apply get_path_field in H as (w & Hw & H). cbn.
    rewrite (bind_eq _ _ _ _ _ Hw). by apply IH.
  - apply get_path_item in H as (w & Hw & H). cbn.
    rewrite (bind_eq _ _ _ _ _ Hw). by apply IH.
Qed.

Lemma get_path_breaks h v p u k rest :
  reads h v p u -> u = VUndef \/ u = VNull ->
  get_path v (p ++ k :: rest) h = Throw TypeError.
Proof.
  intros Hp Hu. rewrite (reads_app _ _ _ _ _ Hp).
  destruct Hu as [-> | ->]; by destruct k.
Qed.

(** The patient-view handlers start by reading [given_path]: when that
    throws, they throw. *)
Lemma patient_view_given_throws req res h e :
  get_path (body req) given_path h = Throw e ->
  Index.patient_view_example req res h = Throw e /\
  Part000.patient_view_example req res h = Throw e.
Proof.
  unfold given_path, get_path, Index.patient_view_example, Part000.patient_view_example, bind.
  intros H.
  repeat match type of H with
         | context [match ?m ?h0 with _ => _ end] =>
             destruct (m h0) as [[? ?]|?]; [|by injection H as ->]
         end.
  discriminate.
Qed.

(** When [given_path] is read, with [g] the text of what is there, the
    handlers go on with [family_path]: when that throws, they throw. *)
Lemma patient_view_family_throws req res h given0 g e :
  reads h (body req) given_path given0 ->
  to_string given0 h = Ok (g, h) ->
  get_path (body req) family_path h = Throw e ->
  Index.patient_view_example req res h = Throw e /\
  Part000.patient_view_example req res h = Throw e.
Proof.
  unfold reads, given_path. intros Hg Htg Hf. path_inv Hg.
  unfold family_path, get_path in Hf.
  repeat match type of Hf with
         | bind ?m _ ?h0 = _ =>
             match goal with
             | E : m h0 = Ok _ |- _ => rewrite (bind_eq _ _ _ _ _ E) in Hf
             end
         end.
  unfold bind in Hf.
  split;
    unfold Index.patient_view_example, Part000.patient_view_example; steps;
    rewrite (bind_eq _ _ _ _ _ (plus_text _ _ _ _ Htg)); steps;
    unfold bind;
    (destruct (get_prop _ "family" h) as [[family hf]|?]; [|by injection Hf as ->]);
    (destruct (get_index family 0 hf) as [[? ?]|?]; [|by injection Hf as ->]);
    discriminate.
Qed.

Lemma to_string_str s h : to_string (VStr s) h = Ok (s, h).
Proof. unfold to_string. by destruct (length h). Qed.

Lemma to_string_undefined h : to_string VUndef h = Ok ("undefined", h).
Proof. unfold to_string. by destruct (length h). Qed.

(** The patient-view handlers throw a TypeError when a step on the way to
    [given[0]] is [undefined] or [null] (no prefetch, no name, an empty
    [name], no [given]), and, [given[0]] being read, when a step on the way
    to [family[0]] is (no [family]). *)
Theorem patient_view_throws_on_missing_data h req res p k rest u :
  reads h (body req) p u ->
  u = VUndef \/ u = VNull ->
  given_path = p ++ k :: rest \/
  (family_path = p ++ k :: rest /\
   exists given0 g, reads h (body req) given_path given0 /\ to_string given0 h = Ok (g, h)) ->
  Index.patient_view_example req res h = Throw TypeError /\
  Part000.patient_view_example req res h = Throw TypeError.
Proof.
  intros Hp Hu [Hpath|(Hpath & given0 & g & Hg & Htg)].
  - apply patient_view_given_throws. rewrite Hpath. by eapply get_path_breaks.
  - eapply patient_view_family_throws; [done..|].
    rewrite Hpath. by eapply get_path_breaks.
Qed.

Lemma patient_view_throws_on_missing_data_witness :
  let req := mk_request "POST" "/cds-services/patient-view-example" [] (parsed no_body).1 in
  reads (parsed no_body).2 (body req) [Field "prefetch"] VUndef /\
  Index.patient_view_example req Response.fresh (parsed no_body).2 = Throw TypeError /\
  Part000.patient_view_example req Response.fresh (parsed no_body).2 = Throw TypeError.
Proof.
  intros req. split; [reflexivity|].
  apply (patient_view_throws_on_missing_data _ req _ [Field "prefetch"]
           (Field "requestedPatient")
           [Field "resource"; Field "name"; Item 0; Field "given"; Item 0] VUndef);
    [reflexivity | by left | by left].
Defined.



(** With an empty [given] array the handlers do not fail: [given[0]] is
    [undefined] and the summary says so. *)
Theorem empty_given_prints_undefined h req res given family0 f :
  reads h (body req) given_names_path given ->
  elements h given = Some [] ->
  reads h (body req) family_path family0 ->
  to_string family0 h = Ok (f, h) ->
  let summary := "Now seeing: undefined " +:+ f in
  sends Index.patient_view_example (patient_card_index summary) h req res /\
  sends Part000.patient_view_example (patient_card_part000 summary) h req res.
Proof.
  intros Hgiven Hel Hf Htf summary.
  assert (Hg : reads h (body req) given_path VUndef).
  { unfold reads. change given_path with (given_names_path ++ [Item 0]).
    rewrite (reads_app _ _ _ _ _ Hgiven).
    unfold elements in Hel. destruct given as [| | | | |l]; try done.
    destruct (h !! l) as [[?|elems]|] eqn:Hl; try done. injection Hel as ->.
    cbn. unfold bind, get_index. by rewrite Hl. }
  pose proof (to_string_undefined h) as Htg.
  split.
  - exact (Index_patient_view_sends h req res VUndef family0 "undefined" f Hg Hf Htg Htf).
  - exact (Part000_patient_view_sends h req res VUndef family0 "undefined" f Hg Hf Htg Htf).
Qed.

Lemma empty_given_prints_undefined_witness :
  let doc := patient_view_body [] [JStr "Lee"] in
  let req := mk_request "POST" "/cds-services/patient-view-example" [] (parsed doc).1 in
  (exists given, reads (parsed doc).2 (body req) given_names_path given /\
                 elements (parsed doc).2 given = Some []) /\
  sends Index.patient_view_example (patient_card_index "Now seeing: undefined Lee")
    (parsed doc).2 req Response.fresh.
Proof.
  intros doc req. split; [by eexists (VRef 0)|].
  destruct (empty_given_prints_undefined (parsed doc).2 req Response.fresh
              (VRef 0) (VStr "Lee") "Lee") as [H _]; [reflexivity..|].
  exact H.
Defined.

(** ** The medication handlers *)

Lemma reads_field h v k w : reads h v [Field k] w -> get_prop v k h = Ok (w, h).
Proof.
  unfold reads. intros (u & Hu & H)%get_path_field.
  by apply get_path_nil in H as [-> _].
Qed.

Lemma literal_includes_resourceType rt :
  literal_includes [VStr "MedicationRequest"; VStr "MedicationOrder"] (VStr rt)
  = bool_decide (rt = "MedicationRequest" \/ rt = "MedicationOrder").
Proof.
  unfold literal_includes. apply bool_decide_ext.
  rewrite !elem_of_cons, elem_of_nil. split.
  - intros [[= ->]|[[= ->]|[]]]; [by left | by right].
  - intros [-> | ->]; [by left | by right; left].
Qed.

Lemma Index_medication_chosen h draftOrder selections rt id ids sel concept :
  reads h draftOrder [Field "resourceType"] (VStr rt) ->
  reads h draftOrder [Field "id"] id ->
  to_string id h = Ok (ids, h) ->
  elements h selections = Some sel ->
  reads h draftOrder [Field "medicationCodeableConcept"] concept ->
  Index.medication_chosen draftOrder selections h =
  Ok (bool_decide (rt = "MedicationRequest" \/ rt = "MedicationOrder")
      && bool_decide (VStr (rt +:+ "/" +:+ ids) ∈ sel)
      && truthy concept, h).
Proof.
  intros Hrt%reads_field Hid%reads_field Hids Hsel Hconcept%reads_field.
  unfold Index.medication_chosen. steps.
  rewrite literal_includes_resourceType. case_bool_decide; [|done]. cbn [andb].
  unfold elements in Hsel. destruct selections as [| | | | |l]; try done.
  destruct (h !! l) as [[?|elems]|] eqn:Hl; try done. injection Hsel as ->.
  assert (Hm : method_of (VRef l) h = Ok (tt, h)) by done.
  pose proof (to_string_str rt h) as Hrts.
  steps.
  assert (Hinc : includes (VRef l) (rt +:+ "/" +:+ ids) h
                 = Ok (bool_decide (VStr (rt +:+ "/" +:+ ids) ∈ sel), h)).
  { unfold includes. by rewrite Hl. }
  steps. destruct (bool_decide _); [|done]. steps. reflexivity.
Qed.



(** ** The medication handlers on an order of the recommended medication *)

Lemma reads_code_truthy h context code :
  reads h context code_path code ->
  exists concept, reads h context [Field "medicationCodeableConcept"] concept /\
                  truthy concept = true.
Proof.
  intros H. destruct (reads_code_concept _ _ _ H) as (l & props & concept & -> & Hl & Hk).
  unfold reads, code_path in H.
  apply get_path_field in H as (c & Hc & H).
  apply get_path_field in H as (coding & Hcoding & H).
  apply get_path_item in H as (coding0 & Hcoding0 & H).
  apply get_path_field in H as (w & Hw & _).
  exists c. split.
  - unfold reads, get_path. by rewrite (bind_eq _ _ _ _ _ Hc).
  - destruct c as [| | | | |lc]; try done;
      cbn in Hcoding; injection Hcoding as <-; done.
Qed.

Lemma find_route_third (r1 r2 : route) m p f req :
  method req = m -> path req = p ->
  (r1.1.1 <> m \/ r1.1.2 <> p) -> (r2.1.1 <> m \/ r2.1.2 <> p) ->
  find_route [r1; r2; (m, p, f)] req = Some f.
Proof.
  destruct r1 as [[m1 p1] f1], r2 as [[m2 p2] f2]. cbn. intros Hm Hp H1 H2.
  rewrite Hm, Hp, !String.eqb_refl.
  assert (String.eqb m m1 && String.eqb p p1 = false)%bool as ->.
  { apply andb_false_iff. destruct H1 as [H1|H1]; [left|right]; apply String.eqb_neq; congruence. }
  assert (String.eqb m m2 && String.eqb p p2 = false)%bool as ->.
  { apply andb_false_iff. destruct H2 as [H2|H2]; [left|right]; apply String.eqb_neq; congruence. }
  reflexivity.
Qed.

(** For a selected medication order whose code is ['243670'] the
    order-select handler sends the info card, and the application answers
    with it (status 200) when the request is a POST to the route that the
    authorization middleware lets through. *)
Theorem order_select_sends_info_card h req draftOrder rt ids sel :
  order_select_context h (body req) draftOrder rt ids sel ->
  rt = "MedicationRequest" \/ rt = "MedicationOrder" ->
  VStr (rt +:+ "/" +:+ ids) ∈ sel ->
  reads h draftOrder code_path (VStr "243670") ->
  (forall res, sends Index.order_select_example info_card_index h req res) /\
  (method req = "POST" -> path req = "/cds-services/order-select-example" ->
   startsWith (Index.authorizationHeader req) "Bearer" = true ->
   answered_with info_card_index (Index.app h req)).
Proof.
  intros (selections & id & Hd & Hs & Hrt & Hid & Hids & Hsel) Hkind Hin Hcode.
  destruct (reads_code_truthy _ _ _ Hcode) as (concept & Hconcept & Htruthy).
  pose proof (Index_medication_chosen _ _ _ _ _ _ _ _ Hrt Hid Hids Hsel Hconcept) as Hchosen.
  rewrite Htruthy, !bool_decide_eq_true_2 in Hchosen by done. cbn [andb] in Hchosen.
  destruct (Index_info_card _ _ Hcode) as (response & h' & Hcreate & Hjson).
  assert (Hsends : forall res, Index.order_select_example req res h
                     = Ok (Response.send (Some info_card_index) res, h')).
  { intros res. unfold reads, draft_order_path in Hd, Hs. path_inv Hd. path_inv Hs.
    unify_reads. unfold Index.order_select_example. steps.
    unfold bind. rewrite Hcreate, Hjson. reflexivity. }
  split.
  - intros res. exists h'. apply Hsends.
  - intros Hm Hp Hb. rewrite Index_app_passed by by apply Index_authorization_passes.
    unfold router, handle, Index.routes.
    rewrite (find_route_third _ _ _ _ _ _ Hm Hp) by (left + right; done).
    rewrite Hsends. by eexists _, _.
Qed.

Lemma order_select_sends_info_card_witness :
  let doc := order_select_body [JStr "MedicationRequest/123"] aspirin_order in
  let req := mk_request "POST" "/cds-services/order-select-example"
               [("authorization", "Bearer abc")] (parsed doc).1 in
  sends Index.order_select_example info_card_index (parsed doc).2 req Response.fresh /\
  answered_with info_card_index (Index.app (parsed doc).2 req).
Proof.
  intros doc req.
  assert (Hctx : order_select_context (parsed doc).2 (body req) (VRef 4)
                   "MedicationRequest" "123" [VStr "MedicationRequest/123"]).
  { exists (VRef 0), (VStr "123"). by split_and!. }
  destruct (order_select_sends_info_card (parsed doc).2 req (VRef 4)
              "MedicationRequest" "123" [VStr "MedicationRequest/123"] Hctx)
    as [Hsends Happ].
  - by left.
  - apply list_elem_of_here.
  - reflexivity.
  - split; [apply Hsends | apply Happ; reflexivity].
Defined.

(** For an order whose code is ['243670'] the medication-prescribe handler
    of [part_000] sends the info card, and the application answers a POST
    to its route with it (status 200). *)
Theorem medication_prescribe_sends_info_card h req context :
  reads h (body req) context_path context ->
  reads h context code_path (VStr "243670") ->
  (forall res, sends Part000.medication_prescribe_example info_card_part000 h req res) /\
  (method req = "POST" -> path req = "/cds-services/medication-prescribe-example" ->
   answered_with info_card_part000 (Part000.app h req)).
Proof.
  intros Hx Hcode.
  destruct (reads_code_truthy _ _ _ Hcode) as (concept & Hconcept & Htruthy).
  destruct (Part000_info_card _ _ Hcode) as (response & h' & Hcreate & Hjson).
  assert (Hsends : forall res, Part000.medication_prescribe_example req res h
                     = Ok (Response.send (Some info_card_part000) res, h')).
  { intros res. unfold reads, context_path in Hx. path_inv Hx. path_inv Hconcept.
    unfold Part000.medication_prescribe_example. steps. rewrite Htruthy.
    unfold bind. rewrite Hcreate, Hjson. reflexivity. }
  split.
  - intros res. exists h'. apply Hsends.
  - intros Hm Hp. rewrite Part000_app_routed.
    unfold router, handle, Part000.routes.
    rewrite (find_route_third _ _ _ _ _ _ Hm Hp) by (left + right; done).
    rewrite Hsends. by eexists _, _.
Qed.

Lemma medication_prescribe_sends_info_card_witness :
  let doc := medication_prescribe_body aspirin_order in
  let req := mk_request "POST" "/cds-services/medication-prescribe-example" []
               (parsed doc).1 in
  sends Part000.medication_prescribe_example info_card_part000 (parsed doc).2 req
    Response.fresh /\
  answered_with info_card_part000 (Part000.app (parsed doc).2 req).
Proof.
  intros doc req.
  destruct (medication_prescribe_sends_info_card (parsed doc).2 req (VRef 3))
    as [Hsends Happ]; [reflexivity | reflexivity |].
  split; [apply Hsends | apply Happ; reflexivity].
Defined.

(** ** Where the medication handlers throw *)

(** The order-select handler throws a TypeError when its check holds on a
    draft order whose truthy [medicationCodeableConcept] has no [coding], or
    a [coding] without a first element; the application then crashes on an
    authorized POST to the route: the check does not look at [coding]. *)
Theorem order_select_throws_without_coding h req draftOrder rt ids sel concept :
  order_select_context h (body req) draftOrder rt ids sel ->
  rt = "MedicationRequest" \/ rt = "MedicationOrder" ->
  VStr (rt +:+ "/" +:+ ids) ∈ sel ->
  reads h draftOrder [Field "medicationCodeableConcept"] concept ->
  truthy concept = true ->
  reads h draftOrder [Field "medicationCodeableConcept"; Field "coding"] VUndef \/
  reads h draftOrder [Field "medicationCodeableConcept"; Field "coding"; Item 0] VUndef ->
  (forall res, Index.order_select_example req res h = Throw TypeError) /\
  (method req = "POST" -> path req = "/cds-services/order-select-example" ->
   startsWith (Index.authorizationHeader req) "Bearer" = true ->
   Index.app h req = Crashed TypeError).
Proof.
  intros (selections & id & Hd & Hs & Hrt & Hid & Hids & Hsel) Hkind Hin Hconcept Htruthy
    Hthrows%providerOrderedMedication_throws%Index_create_throws.
  pose proof (Index_medication_chosen _ _ _ _ _ _ _ _ Hrt Hid Hids Hsel Hconcept) as Hchosen.
  rewrite Htruthy, !bool_decide_eq_true_2 in Hchosen by done. cbn [andb] in Hchosen.
  assert (Hcrash : forall res, Index.order_select_example req res h = Throw TypeError).
  { intros res. unfold reads, draft_order_path in Hd, Hs. path_inv Hd. path_inv Hs.
    unify_reads. unfold Index.order_select_example. steps.
    unfold bind. by rewrite Hthrows. }
  split; [done|].
  intros Hm Hp Hb. rewrite Index_app_passed by by apply Index_authorization_passes.
  unfold router, handle, Index.routes.
  rewrite (find_route_third _ _ _ _ _ _ Hm Hp) by (left + right; done).
  by rewrite Hcrash.
Qed.

Lemma order_select_throws_without_coding_witness :
  let doc := order_select_body [JStr "MedicationRequest/123"]
               (order [("medicationCodeableConcept", JObj [])]) in
  let req := mk_request "POST" "/cds-services/order-select-example" [] (parsed doc).1 in
  Index.order_select_example req Response.fresh (parsed doc).2 = Throw TypeError /\
  Index.app (parsed doc).2 req = Crashed TypeError.
Proof.
  intros doc req.
  assert (Hctx : order_select_context (parsed doc).2 (body req) (VRef 2)
                   "MedicationRequest" "123" [VStr "MedicationRequest/123"]).
  { exists (VRef 0), (VStr "123"). by split_and!. }
  destruct (order_select_throws_without_coding (parsed doc).2 req (VRef 2)
              "MedicationRequest" "123" [VStr "MedicationRequest/123"] (VRef 1) Hctx)
    as [Hhandler Happ].
  - by left.
  - apply list_elem_of_here.
  - reflexivity.
  - reflexivity.
  - left. reflexivity.
  - split; [apply Hhandler | apply Happ; reflexivity].
Defined.

(** The medication-prescribe handler of [part_000] throws a TypeError when
    the truthy [medicationCodeableConcept] of the order has no [coding], or
    a [coding] without a first element, and the application crashes on a
    POST to the route. *)
Theorem medication_prescribe_throws_without_coding h req context concept :
  reads h (body req) context_path context ->
  reads h context [Field "medicationCodeableConcept"] concept ->
  truthy concept = true ->
  reads h context [Field "medicationCodeableConcept"; Field "coding"] VUndef \/
  reads h context [Field "medicationCodeableConcept"; Field "coding"; Item 0] VUndef ->
  (forall res, Part000.medication_prescribe_example req res h = Throw TypeError) /\
  (method req = "POST" -> path req = "/cds-services/medication-prescribe-example" ->
   Part000.app h req = Crashed TypeError).
Proof.
  intros Hx Hconcept Htruthy Hthrows%providerOrderedMedication_throws%Part000_create_throws.
  assert (Hcrash : forall res,
             Part000.medication_prescribe_example req res h = Throw TypeError).
  { intros res. unfold reads, context_path in Hx. path_inv Hx. path_inv Hconcept.
    unfold Part000.medication_prescribe_example. steps. rewrite Htruthy.
    unfold bind. by rewrite Hthrows. }
  split; [done|].
  intros Hm Hp. rewrite Part000_app_routed.
  unfold router, handle, Part000.routes.
  rewrite (find_route_third _ _ _ _ _ _ Hm Hp) by (left + right; done).
  by rewrite Hcrash.
Qed.

Lemma medication_prescribe_throws_without_coding_witness :
  let doc := medication_prescribe_body (order [("medicationCodeableConcept", JObj [])]) in
  let req := mk_request "POST" "/cds-services/medication-prescribe-example" []
               (parsed doc).1 in
  Part000.medication_prescribe_example req Response.fresh (parsed doc).2 = Throw TypeError /\
  Part000.app (parsed doc).2 req = Crashed TypeError.
Proof.
  intros doc req.
  destruct (medication_prescribe_throws_without_coding (parsed doc).2 req (VRef 1) (VRef 0))
    as [Hhandler Happ]; [reflexivity | reflexivity | reflexivity | left; reflexivity |].
  split; [apply Hhandler | apply Happ; reflexivity].
Defined.

Lemma get_prop_other v k k' w h :
  get_prop v k h = Ok (w, h) -> exists w', get_prop v k' h = Ok (w', h).
Proof.
  destruct v as [| | | | |l]; cbn; try discriminate; eauto.
  destruct (h !! l) as [[props|elems]|]; try discriminate; eauto.
Qed.

(** The ways to cut a path of the program in two. *)
Ltac split_path Hpath p :=
  destruct p as [|? p];
  [ injection Hpath as <- <-
  | injection Hpath as <- Hpath; first [split_path Hpath p | by destruct p] ].

(** The medication handlers throw a TypeError when a step on the way to the
    order, or the order itself, is [undefined] or [null]: a body without
    [context], without [draftOrders], with an empty [entry], an entry
    without [resource]; in [part_000] an empty [context]. *)
Theorem medication_handlers_throw_on_missing_data h req res p k rest u :
  reads h (body req) p u ->
  u = VUndef \/ u = VNull ->
  (draft_order_path ++ [Field "resourceType"] = p ++ k :: rest ->
   Index.order_select_example req res h = Throw TypeError) /\
  (context_path ++ [Field "medicationCodeableConcept"] = p ++ k :: rest ->
   Part000.medication_prescribe_example req res h = Throw TypeError).
Proof.
  unfold reads. intros Hp Hu. split; intros Hpath.
  - split_path Hpath p.
    all: path_inv Hp; unfold Index.order_select_example; steps.
    all: try (by destruct Hu as [-> | ->]).
    match goal with
    | E : get_prop ?c "draftOrders" h = Ok _ |- _ =>
        destruct (get_prop_other _ _ "selections" _ _ E) as [selections Hs]
    end.
    steps. by destruct Hu as [-> | ->].
  - split_path Hpath p.
    all: path_inv Hp; unfold Part000.medication_prescribe_example; steps.
    all: by destruct Hu as [-> | ->].
Qed.

Lemma medication_handlers_throw_on_missing_data_witness :
  let doc := JObj [("context", JArr [])] in
  let req := mk_request "POST" "/cds-services/order-select-example" [] (parsed doc).1 in
  Index.order_select_example req Response.fresh (parsed doc).2 = Throw TypeError /\
  Part000.medication_prescribe_example req Response.fresh (parsed doc).2 = Throw TypeError.
Proof.
  intros doc req. split.
  - destruct (medication_handlers_throw_on_missing_data (parsed doc).2 req Response.fresh
                [Field "context"; Field "draftOrders"] (Field "entry")
                [Item 0; Field "resource"; Field "resourceType"] VUndef) as [H _];
      [reflexivity | by left | apply H; reflexivity].
  - destruct (medication_handlers_throw_on_missing_data (parsed doc).2 req Response.fresh
                [Field "context"; Item 0] (Field "medicationCodeableConcept") [] VUndef)
      as [_ H]; [reflexivity | by left | apply H; reflexivity].
Defined.

(** ** The order of the properties *)

Lemma own_properties_cons e props :
  own_properties (e :: props) = list_before e (own_properties props).
Proof. reflexivity. Qed.

Lemma comes_before_ne k k' : comes_before k k' = false -> k <> k'.
Proof.
  intros H ->. unfold comes_before in H.
  destruct (array_index k') as [n|]; [|done].
  by rewrite N.leb_refl in H.
Qed.

Lemma elem_of_list_before kv e l : kv ∈ list_before e l <-> kv = e \/ kv ∈ l.
Proof.
  induction l as [|e' r IH]; cbn.
  - rewrite elem_of_cons, elem_of_nil. tauto.
  - destruct (comes_before e.1 e'.1).
    + by rewrite elem_of_cons.
    + rewrite !elem_of_cons, IH. tauto.
Qed.

Lemma elem_of_own_properties kv props : kv ∈ own_properties props <-> kv ∈ props.
Proof.
  induction props as [|e props IH]; [done|].
  rewrite own_properties_cons, elem_of_list_before, elem_of_cons, IH. tauto.
Qed.

Lemma lookup_list_before k e l :
  lookup_prop k (list_before e l)
  = if String.eqb k e.1 then Some e.2 else lookup_prop k l.
Proof.
  destruct e as [k0 v0]. induction l as [|[k1 v1] r IH]; cbn; [done|].
  destruct (comes_before k0 k1) eqn:Hb; cbn; [done|].
  rewrite IH. cbn. destruct (String.eqb k k0) eqn:Hk; [|done].
  apply String.eqb_eq in Hk as ->. apply comes_before_ne in Hb.
  by apply String.eqb_neq in Hb as ->.
Qed.

Lemma own_properties_elem kv props : kv ∈ own_properties props -> kv ∈ props.
Proof. apply elem_of_own_properties. Qed.

(** The first property of a name is the same in the list as written and in
    the list as printed. *)
Lemma lookup_own_properties k props :
  lookup_prop k (own_properties props) = lookup_prop k props.
Proof.
  induction props as [|[k0 v0] props IH]; [done|].
  rewrite own_properties_cons, lookup_list_before, IH. reflexivity.
Qed.

Lemma assign_list_before_same k v v0 l :
  assign_prop k v (list_before (k, v0) l) = list_before (k, v) l.
Proof.
  induction l as [|[k1 v1] r IH]; cbn.
  - by rewrite String.eqb_refl.
  - destruct (comes_before k k1) eqn:Hb; cbn.
    + by rewrite String.eqb_refl.
    + apply comes_before_ne in Hb. apply String.eqb_neq in Hb as ->. by rewrite IH.
Qed.

Lemma list_before_assign k v e l :
  e.1 <> k -> is_Some (lookup_prop k l) ->
  list_before e (assign_prop k v l) = assign_prop k v (list_before e l).
Proof.
  destruct e as [k0 v0]. cbn. intros Hne.
  assert (Hk0 : String.eqb k k0 = false) by (apply String.eqb_neq; congruence).
  induction l as [|[k1 v1] r IH]; cbn; [by intros [? ?]|].
  destruct (String.eqb k k1) eqn:Hk1; cbn.
  - apply String.eqb_eq in Hk1 as <-. intros _.
    destruct (comes_before k0 k); cbn; by rewrite ?Hk0, ?String.eqb_refl.
  - intros Hr. destruct (comes_before k0 k1); cbn; rewrite ?Hk0, ?Hk1; [done|].
    by rewrite IH.
Qed.

(** An assignment to a property that is there changes its value and leaves
    the order in which the properties are printed. *)
Lemma own_properties_assign k v c props :
  lookup_prop k props = Some c ->
  own_properties (assign_prop k v props) = assign_prop k v (own_properties props).
Proof.
  induction props as [|[k0 v0] props IH]; [done|]. cbn [lookup_prop assign_prop].
  destruct (String.eqb k k0) eqn:Hk.
  - apply String.eqb_eq in Hk as <-. intros _.
    by rewrite !own_properties_cons, assign_list_before_same.
  - intros Hc. rewrite !own_properties_cons, (IH Hc).
    apply list_before_assign.
    + cbn. apply String.eqb_neq in Hk. congruence.
    + rewrite lookup_own_properties, Hc. by eexists.
Qed.

(** ** Documents of ordered heaps *)

Lemma ordered_from_lookup h : forall n l c,
  ordered_from n h = true -> h !! l = Some c -> cell_below (n + l) c = true.
Proof.
  induction h as [|c0 h IH]; intros n l c Ho Hl; [done|].
  cbn in Ho. apply andb_true_iff in Ho as [Hc Ho].
  destruct l as [|l]; cbn in Hl.
  - injection Hl as <-. by rewrite Nat.add_0_r.
  - rewrite Nat.add_succ_r. by apply (IH (S n)).
Qed.

Lemma ordered_lookup h l c :
  ordered h = true -> h !! l = Some c -> cell_below l c = true.
Proof. intros Ho Hl. exact (ordered_from_lookup h 0 l c Ho Hl). Qed.

(** Two functions that agree on the elements of a list, with results that
    do not depend on the fuel. *)
Lemma mapM_agree {A B} (f g : nat -> A -> result B) (n : nat) l :
  Forall (fun x => exists y, forall fuel, n <= fuel -> f fuel x = Ok y /\ g fuel x = Ok y) l ->
  exists ys, forall fuel, n <= fuel ->
    mapM (f fuel) l = Ok ys /\ mapM (g fuel) l = Ok ys.
Proof.
  induction 1 as [|x l [y Hy] _ [ys Hys]].
  - by exists [].
  - exists (y :: ys). intros fuel Hle. cbn.
    destruct (Hy fuel Hle) as [-> ->]. destruct (Hys fuel Hle) as [-> ->]. done.
Qed.

(** The document of a value that lives below [n] in an ordered heap is
    there, with [n] or more units of fuel, and it is the same in every heap
    that has the same cells below [n]. *)
Lemma to_json_below h h' : forall n v,
  ordered h = true -> n <= length h ->
  (forall l, l < n -> h' !! l = h !! l) ->
  below n v = true ->
  exists j, forall fuel, n <= fuel ->
    to_json fuel h v = Ok j /\ to_json fuel h' v = Ok j.
Proof.
  intros n. induction n as [n IH] using lt_wf_ind. intros v Ho Hn Hagree Hv.
  destruct v as [| | | | |l];
    try (eexists; intros [|fuel] _; split; reflexivity).
  cbn in Hv. apply Nat.ltb_lt in Hv.
  destruct (lookup_lt_is_Some_2 h l ltac:(lia)) as [c Hl].
  pose proof (ordered_lookup _ _ _ Ho Hl) as Hc.
  assert (Hl' : h' !! l = Some c) by (rewrite Hagree; done).
  assert (Hsub : forall w, below l w = true ->
            exists j, forall fuel, l <= fuel ->
              to_json fuel h w = Ok j /\ to_json fuel h' w = Ok j).
  { intros w Hw. apply (IH l Hv w Ho); [lia| |done].
    intros l0 Hl0. apply Hagree. lia. }
  destruct c as [props|elems]; cbn in Hc.
  - destruct (mapM_agree
                (fun fuel '(k, w) => match to_json fuel h w with
                                     | Ok j => Ok (k, j) | Throw e => Throw e end)
                (fun fuel '(k, w) => match to_json fuel h' w with
                                     | Ok j => Ok (k, j) | Throw e => Throw e end)
                l (own_properties props)) as [ms Hms].
    { apply Forall_forall. intros [k w] Hin%own_properties_elem.
      rewrite forallb_forall in Hc. specialize (Hc (k, w)).
      destruct (Hsub w) as [j Hj].
      { apply Hc. by apply list_elem_of_In. }
      exists (k, j). intros fuel Hle. by destruct (Hj fuel Hle) as [-> ->]. }
    eexists. intros [|fuel] Hle; [lia|]. cbn. rewrite Hl, Hl'.
    destruct (Hms fuel ltac:(lia)) as [-> ->]. done.
  - destruct (mapM_agree
                (fun fuel => to_json fuel h) (fun fuel => to_json fuel h') l elems)
      as [js Hjs].
    { apply Forall_forall. intros w Hin.
      rewrite forallb_forall in Hc. apply Hsub, Hc. by apply list_elem_of_In. }
    eexists. intros [|fuel] Hle; [lia|]. cbn. rewrite Hl, Hl'.
    destruct (Hjs fuel ltac:(lia)) as [-> ->]. done.
Qed.

Lemma mapM_impl_in {A B} (f g : A -> result B) l : forall ys,
  (forall x y, x ∈ l -> f x = Ok y -> g x = Ok y) -> mapM f l = Ok ys -> mapM g l = Ok ys.
Proof.
  induction l as [|x l IH]; intros ys Hfg; cbn; [done|].
  destruct (f x) as [y|] eqn:Hx; [|done].
  rewrite (Hfg x y (list_elem_of_here _ _) Hx).
  destruct (mapM f l) as [zs|]; [|done].
  rewrite (IH zs); [done| |done].
  intros x' y' Hin. apply Hfg. by apply list_elem_of_further.
Qed.

Lemma to_json_ref_Some fuel h l j : to_json fuel h (VRef l) = Ok j -> is_Some j.
Proof.
  destruct fuel as [|fuel]; cbn; [done|].
  destruct (h !! l) as [[props|elems]|]; [| |done].
  - destruct (mapM _ (own_properties props)); [|done]. intros [= <-]. by eexists.
  - destruct (mapM _ elems); [|done]. intros [= <-]. by eexists.
Qed.

(** The members of an object after an assignment to its property [k], from
    the members before: [F] makes the member of a property in the heap
    before, [F'] in the heap after. *)
Lemma mapM_assign (F F' : string * value -> result (string * option json))
  k new cj props : forall ms c,
  mapM F props = Ok ms ->
  lookup_prop k props = Some c ->
  (forall y, F (k, c) = Ok y -> is_Some y.2) ->
  (forall kv y, kv ∈ props -> F kv = Ok y -> F' kv = Ok y /\ y.1 = kv.1) ->
  F' (k, new) = Ok (k, Some cj) ->
  exists ms', mapM F' (assign_prop k new props) = Ok ms' /\
    omap (fun '(k, j) => pair k <$> j) ms'
    = with_member k cj (omap (fun '(k, j) => pair k <$> j) ms).
Proof.
  induction props as [|[k0 v0] props IH]; intros ms c Hms Hk Hsome Hsame Hnew; [done|].
  cbn in Hms, Hk.
  destruct (F (k0, v0)) as [[k0' j0]|] eqn:H0; [|done].
  destruct (mapM F props) as [ms0|] eqn:Hms0; [|done]. injection Hms as <-.
  destruct (Hsame (k0, v0) (k0', j0)) as [H0' Hkey]; [apply list_elem_of_here | done |].
  cbn in Hkey. subst k0'.
  assert (Hrest : forall kv y, kv ∈ props -> F kv = Ok y -> F' kv = Ok y /\ y.1 = kv.1).
  { intros kv y Hin. apply Hsame. by apply list_elem_of_further. }
  cbn [assign_prop]. destruct (String.eqb k k0) eqn:Hkk.
  - apply String.eqb_eq in Hkk as <-. injection Hk as ->.
    destruct (Hsome _ H0) as [j Hj]. cbn in Hj. subst j0.
    exists ((k, Some cj) :: ms0). split.
    + cbn. rewrite Hnew.
      rewrite (mapM_impl_in F F' props ms0); [done| |done].
      intros kv y Hin Hy. by apply Hrest.
    + cbn. by rewrite String.eqb_refl.
  - destruct (IH ms0 c eq_refl Hk Hsome Hrest Hnew) as (ms' & Hms' & Heq).
    exists ((k0, j0) :: ms'). split.
    + cbn. by rewrite H0', Hms'.
    + cbn. destruct j0 as [j0|]; cbn; [|done]. by rewrite Hkk, Heq.
Qed.

(** The document of an order of an ordered heap after the assignment of a
    new cell [new], of document [cj], to its property [k]. *)
Lemma updated_order_document (h t : heap) l props k c new cj :
  ordered h = true ->
  h !! l = Some (Obj props) ->
  lookup_prop k props = Some (VRef c) ->
  let h' := <[l := Obj (assign_prop k new props)]> h ++ t in
  (forall fuel, 3 <= fuel -> to_json fuel h' new = Ok (Some cj)) ->
  exists members,
    JSON_stringify (VRef l) h = Ok (Some (JObj members), h) /\
    forall fuel, length h + 3 <= fuel ->
      to_json fuel h' (VRef l) = Ok (Some (JObj (with_member k cj members))).
Proof.
  intros Ho Hl Hk h' Hnew.
  pose proof (lookup_lt_Some _ _ _ Hl) as Hlt.
  pose proof (ordered_lookup _ _ _ Ho Hl) as Hc. cbn in Hc.
  rewrite forallb_forall in Hc.
  assert (Hagree : forall l0, l0 < l -> h' !! l0 = h !! l0).
  { intros l0 Hl0. unfold h'. rewrite lookup_app_l by (rewrite length_insert; lia).
    apply list_lookup_insert_ne. lia. }
  assert (Hsub : forall kv, kv ∈ props ->
            exists j, forall fuel, l <= fuel ->
              to_json fuel h kv.2 = Ok j /\ to_json fuel h' kv.2 = Ok j).
  { intros kv Hin. apply to_json_below; [done|lia|done|].
    apply Hc. by apply list_elem_of_In. }
  destruct (mapM_agree
              (fun fuel '(k, w) => match to_json fuel h w with
                                   | Ok j => Ok (k, j) | Throw e => Throw e end)
              (fun fuel '(k, w) => match to_json fuel h' w with
                                   | Ok j => Ok (k, j) | Throw e => Throw e end)
              l (own_properties props)) as [ms Hms].
  { apply Forall_forall. intros [k0 w] Hin%own_properties_elem.
    destruct (Hsub _ Hin) as [j Hj]. cbn in Hj.
    exists (k0, j). intros fuel Hle. by destruct (Hj fuel Hle) as [-> ->]. }
  eexists. split.
  - unfold JSON_stringify. destruct (length h) as [|f] eqn:Hlen; [lia|].
    cbn. rewrite Hl. destruct (Hms f ltac:(lia)) as [-> _]. reflexivity.
  - intros [|fuel] Hle; [lia|]. cbn.
    unfold h' at 1. rewrite (lookup_updated _ _ _ _ Hlt).
    rewrite (own_properties_assign _ _ _ _ Hk).
    destruct (mapM_assign
                (fun '(k, w) => match to_json fuel h w with
                                | Ok j => Ok (k, j) | Throw e => Throw e end)
                (fun '(k, w) => match to_json fuel h' w with
                                | Ok j => Ok (k, j) | Throw e => Throw e end)
                k new cj (own_properties props) ms (VRef c)) as (ms' & -> & ->);
      [| | | | |done].
    + by destruct (Hms fuel ltac:(lia)) as [-> _].
    + by rewrite lookup_own_properties.
    + intros [k0 j0]. destruct (to_json fuel h (VRef c)) as [j|] eqn:Hj; [|done].
      intros [= _ <-]. by eapply to_json_ref_Some.
    + intros [k0 w] y Hin%own_properties_elem.
      destruct (Hsub _ Hin) as [j Hj]. cbn in Hj.
      destruct (Hj fuel ltac:(lia)) as [-> ->]. by intros [= <-].
    + by rewrite Hnew by lia.
Qed.

Lemma to_json_str fuel h s : to_json fuel h (VStr s) = Ok (Some (JStr s)).
Proof. by destruct fuel. Qed.

Lemma reads_code_concept_ref h l props code :
  h !! l = Some (Obj props) ->
  reads h (VRef l) code_path code ->
  exists c, lookup_prop "medicationCodeableConcept" props = Some (VRef c).
Proof.
  unfold reads, code_path. intros Hl H.
  apply get_path_field in H as (concept & Hconcept & H).
  apply get_path_field in H as (coding & Hcoding & H).
  apply get_path_item in H as (coding0 & Hcoding0 & _).
  unfold get_prop in Hconcept. rewrite Hl in Hconcept.
  destruct (lookup_prop _ props) as [w|]; cbn in Hconcept; injection Hconcept as <-.
  - destruct w as [| | | | |c]; cbn in Hcoding; try done;
      try (injection Hcoding as <-; done).
    by exists c.
  - done.
Qed.

(** The card generator on an order of an ordered heap: the allocations and
    the assignment, then the document of what it returns.  The heap after
    the call is known by the cells that are looked up. *)
Ltac suggestion_document Ho Hl Hk Hcreate :=
  match type of Hcreate with
  | _ = Ok (_, <[?l := Obj (assign_prop _ ?new ?props)]> ?h ++ ?t) =>
      let members := fresh "members" in
      let Hdoc := fresh "Hdoc" in
      let Horder := fresh "Horder" in
      let Hfresh := fresh "Hfresh" in
      let Hlen := fresh "Hlen" in
      let h' := fresh "h'" in
      let Hh' := fresh "Hh'" in
      pose proof (fun k => lookup_fresh_at
                    (<[l := Obj (assign_prop "medicationCodeableConcept" new props)]> h)
                    t (length h) k (length_insert _ _ _)) as Hfresh;
      assert (Hlen : length (<[l := Obj (assign_prop "medicationCodeableConcept" new props)]> h
                             ++ t) = length h + 11)
        by (rewrite length_app, length_insert; reflexivity);
      remember (<[l := Obj (assign_prop "medicationCodeableConcept" new props)]> h ++ t)
        as h' eqn:Hh' in *;
      destruct (updated_order_document h t l props "medicationCodeableConcept" _ new
                  (concept "Aspirin 81 MG Oral Tablet" "243670") Ho Hl Hk)
        as (members & Hdoc & Horder);
      [ rewrite <- Hh'; clear Hh'; intros fuel Hle; apply (to_json_fuel 3); [|done];
        repeat first [ rewrite Hfresh
                     | rewrite own_properties_named by reflexivity
                     | progress cbn ];
        reflexivity
      | rewrite <- Hh' in Horder; clear Hh';
        exists members; split; [done|];
        eexists _, _; split; [exact Hcreate|];
        apply (JSON_stringify_fuel (7 + (length h + 3))); [|rewrite Hlen; cbn; lia];
        repeat first [ rewrite Hfresh
                     | rewrite Horder by lia
                     | rewrite to_json_str
                     | rewrite own_properties_named by reflexivity
                     | progress cbn ];
        reflexivity ]
  end.

Lemma Index_suggestion_document h context code :
  ordered h = true ->
  reads h context code_path code ->
  code <> VStr "243670" ->
  exists members,
    JSON_stringify context h = Ok (Some (JObj members), h) /\
    returns_card Index.createMedicationResponseCard
      (suggestion_card_index
         (JObj (with_member "medicationCodeableConcept"
                  (concept "Aspirin 81 MG Oral Tablet" "243670") members)))
      h context.
Proof.
  intros Ho Hreads Hne.
  destruct (reads_code_object _ _ _ Hreads) as (l & props & -> & Hl).
  destruct (reads_code_concept_ref _ _ _ _ Hl Hreads) as [c Hk].
  apply providerOrderedMedication_reads in Hreads as [Hcode _].
  eassert (Hcreate : Index.createMedicationResponseCard (VRef l) h = Ok _).
  { unfold Index.createMedicationResponseCard. steps.
    rewrite strict_eq_ne by done.
    rewrite <- (app_nil_r h) at 1. do 3 alloc_step.
    rewrite (bind_eq _ _ _ _ _ (set_prop_base _ _ _ _ _ _ Hl)).
    do 7 alloc_step. unfold new_object. rewrite alloc_frame. cbn [length app].
    rewrite !length_insert. reflexivity. }
  suggestion_document Ho Hl Hk Hcreate.
Qed.

Lemma Part000_suggestion_document h context code :
  ordered h = true ->
  reads h context code_path code ->
  code <> VStr "243670" ->
  exists members,
    JSON_stringify context h = Ok (Some (JObj members), h) /\
    returns_card Part000.createMedicationResponseCard
      (suggestion_card_part000
         (JObj (with_member "medicationCodeableConcept"
                  (concept "Aspirin 81 MG Oral Tablet" "243670") members)))
      h context.
Proof.
  intros Ho Hreads Hne.
  destruct (reads_code_object _ _ _ Hreads) as (l & props & -> & Hl).
  destruct (reads_code_concept_ref _ _ _ _ Hl Hreads) as [c Hk].
  apply providerOrderedMedication_reads in Hreads as [_ Hcode].
  eassert (Hcreate : Part000.createMedicationResponseCard (VRef l) h = Ok _).
  { unfold Part000.createMedicationResponseCard. steps.
    rewrite strict_eq_ne by done.
    rewrite <- (app_nil_r h) at 1. do 3 alloc_step.
    rewrite (bind_eq _ _ _ _ _ (set_prop_base _ _ _ _ _ _ Hl)).
    do 7 alloc_step. unfold new_object. rewrite alloc_frame. cbn [length app].
    rewrite !length_insert. reflexivity. }
  suggestion_document Ho Hl Hk Hcreate.
Qed.

(** On an ordered heap, for a selected medication order with another code
    than ['243670'], the order-select handler sends the warning card whose
    suggested resource is the document of the order with its
    [medicationCodeableConcept] replaced by the recommended medication, and
    the application answers an authorized POST to the route with it. *)
Theorem order_select_sends_suggestion h req draftOrder rt ids sel code :
  ordered h = true ->
  order_select_context h (body req) draftOrder rt ids sel ->
  rt = "MedicationRequest" \/ rt = "MedicationOrder" ->
  VStr (rt +:+ "/" +:+ ids) ∈ sel ->
  reads h draftOrder code_path code ->
  code <> VStr "243670" ->
  exists members,
    JSON_stringify draftOrder h = Ok (Some (JObj members), h) /\
    let card := suggestion_card_index
                  (JObj (with_member "medicationCodeableConcept"
                           (concept "Aspirin 81 MG Oral Tablet" "243670") members)) in
    (forall res, sends Index.order_select_example card h req res) /\
    (method req = "POST" -> path req = "/cds-services/order-select-example" ->
     startsWith (Index.authorizationHeader req) "Bearer" = true ->
     answered_with card (Index.app h req)).
Proof.
  intros Ho (selections & id & Hd & Hs & Hrt & Hid & Hids & Hsel) Hkind Hin Hcode Hne.
  destruct (reads_code_truthy _ _ _ Hcode) as (concept & Hconcept & Htruthy).
  pose proof (Index_medication_chosen _ _ _ _ _ _ _ _ Hrt Hid Hids Hsel Hconcept) as Hchosen.
  rewrite Htruthy, !bool_decide_eq_true_2 in Hchosen by done. cbn [andb] in Hchosen.
  destruct (Index_suggestion_document _ _ _ Ho Hcode Hne)
    as (members & Hdoc & response & h' & Hcreate & Hjson).
  exists members. split; [done|]. intros card.
  assert (Hsends : forall res, Index.order_select_example req res h
                     = Ok (Response.send (Some card) res, h')).
  { intros res. unfold reads, draft_order_path in Hd, Hs. path_inv Hd. path_inv Hs.
    unify_reads. unfold Index.order_select_example. steps.
    unfold bind. rewrite Hcreate, Hjson. reflexivity. }
  split.
  - intros res. exists h'. apply Hsends.
  - intros Hm Hp Hb. rewrite Index_app_passed by by apply Index_authorization_passes.
    unfold router, handle, Index.routes.
    rewrite (find_route_third _ _ _ _ _ _ Hm Hp) by (left + right; done).
    rewrite Hsends. by eexists _, _.
Qed.

Lemma order_select_sends_suggestion_witness :
  let doc := order_select_body [JStr "MedicationRequest/123"] ibuprofen_order in
  let req := mk_request "POST" "/cds-services/order-select-example" [] (parsed doc).1 in
  sends Index.order_select_example (suggestion_card_index aspirin_order)
    (parsed doc).2 req Response.fresh /\
  answered_with (suggestion_card_index aspirin_order) (Index.app (parsed doc).2 req).
Proof.
  intros doc req.
  assert (Hctx : order_select_context (parsed doc).2 (body req) (VRef 4)
                   "MedicationRequest" "123" [VStr "MedicationRequest/123"]).
  { exists (VRef 0), (VStr "123"). by split_and!. }
  destruct (order_select_sends_suggestion (parsed doc).2 req (VRef 4)
              "MedicationRequest" "123" [VStr "MedicationRequest/123"] (VStr "999999")
              eq_refl Hctx) as (members & Hdoc & Hsends & Happ).
  - by left.
  - apply list_elem_of_here.
  - reflexivity.
  - discriminate.
  - vm_compute in Hdoc. injection Hdoc as <-.
    split; [exact (Hsends Response.fresh) | exact (Happ eq_refl eq_refl eq_refl)].
Defined.

(** On an ordered heap, for an order with another code than ['243670'],
    the medication-prescribe handler of [part_000] sends the warning card
    whose suggested resource is the document of the order with its
    [medicationCodeableConcept] replaced by the recommended medication, and
    the application answers a POST to the route with it. *)
Theorem medication_prescribe_sends_suggestion h req context code :
  ordered h = true ->
  reads h (body req) context_path context ->
  reads h context code_path code ->
  code <> VStr "243670" ->
  exists members,
    JSON_stringify context h = Ok (Some (JObj members), h) /\
    let card := suggestion_card_part000
                  (JObj (with_member "medicationCodeableConcept"
                           (concept "Aspirin 81 MG Oral Tablet" "243670") members)) in
    (forall res, sends Part000.medication_prescribe_example card h req res) /\
    (method req = "POST" -> path req = "/cds-services/medication-prescribe-example" ->
     answered_with card (Part000.app h req)).
Proof.
  intros Ho Hx Hcode Hne.
  destruct (reads_code_truthy _ _ _ Hcode) as (concept & Hconcept & Htruthy).
  destruct (Part000_suggestion_document _ _ _ Ho Hcode Hne)
    as (members & Hdoc & response & h' & Hcreate & Hjson).
  exists members. split; [done|]. intros card.
  assert (Hsends : forall res, Part000.medication_prescribe_example req res h
                     = Ok (Response.send (Some card) res, h')).
  { intros res. unfold reads, context_path in Hx. path_inv Hx. path_inv Hconcept.
    unfold Part000.medication_prescribe_example. steps. rewrite Htruthy.
    unfold bind. rewrite Hcreate, Hjson. reflexivity. }
  split.
  - intros res. exists h'. apply Hsends.
  - intros Hm Hp. rewrite Part000_app_routed.
    unfold router, handle, Part000.routes.
    rewrite (find_route_third _ _ _ _ _ _ Hm Hp) by (left + right; done).
    rewrite Hsends. by eexists _, _.
Qed.

Lemma medication_prescribe_sends_suggestion_witness :
  let doc := medication_prescribe_body ibuprofen_order in
  let req := mk_request "POST" "/cds-services/medication-prescribe-example" []
               (parsed doc).1 in
  sends Part000.medication_prescribe_example (suggestion_card_part000 aspirin_order)
    (parsed doc).2 req Response.fresh /\
  answered_with (suggestion_card_part000 aspirin_order) (Part000.app (parsed doc).2 req).
Proof.
  intros doc req.
  destruct (medication_prescribe_sends_suggestion (parsed doc).2 req (VRef 3)
              (VStr "999999") eq_refl) as (members & Hdoc & Hsends & Happ).
  - reflexivity.
  - reflexivity.
  - discriminate.
  - vm_compute in Hdoc. injection Hdoc as <-.
    split; [exact (Hsends Response.fresh) | exact (Happ eq_refl eq_refl)].
Defined.
